(** * The Evals image-input notebook and the streaming event handler

    A shallow embedding of the Python code of
    [examples/evaluation/use-cases/EvalsAPI_Image_Inputs.ipynb] (the code
    cells, in order) and of [EventHandler] in
    [examples/data/oai_docs/overview-with-streaming.txt].

    Python values that travel as JSON are a small inductive type; a Python
    [dict] is an association list in insertion order.  Exceptions are an
    error monad; the calls on [client], [time.sleep], [display] and [print]
    are recorded in a log threaded through a state monad; the unbounded
    [while True] loop is run with fuel and answers [Spin] when the fuel is
    used up before the loop has left. *)

From Stdlib Require Import QArith.
From stdpp Require Import base numbers list strings.

#[local] Set Warnings "-register-all".
Local Open Scope Z_scope.

(** ** Python values *)

Inductive pyval : Type :=
| PNone
| PBool (b : bool)
| PInt (n : Z)
| PFloat (q : Q)            (* a float literal, as the decimal it denotes *)
| PStr (s : string)
| PList (l : list pyval)
| PDict (d : list (string * pyval)).

Inductive exn : Type :=
| KeyError (key : pyval)
| IndexError
| TypeError
| ValueError
| AttributeError (attr : string).

(** A Python expression either has a value or raises. *)
Inductive py (A : Type) : Type :=
| Ok (a : A)
| Raise (e : exn).
Arguments Ok {A} a.
Arguments Raise {A} e.

#[global] Instance py_ret : MRet py := fun _ a => Ok a.
#[global] Instance py_bind : MBind py := fun _ _ f m =>
  match m with
  | Ok a => f a
  | Raise e => Raise e
  end.

Definition raises {A} (m : py A) : Prop := ∃ e, m = Raise e.

(** A statement acts on a state [S] (what has been written or called so
    far) and returns, raises, or is still running when the fuel is gone. *)
Inductive res (A : Type) : Type :=
| Val (a : A)
| Exc (e : exn)
| Spin.
Arguments Val {A} a.
Arguments Exc {A} e.
Arguments Spin {A}.

Definition M (S : Type) : Type → Type := λ A, S → res A * S.

#[global] Instance M_ret {S} : MRet (M S) := λ _ a s, (Val a, s).
#[global] Instance M_bind {S} : MBind (M S) := λ _ _ f m s,
  match m s with
  | (Val a, s') => f a s'
  | (Exc e, s') => (Exc e, s')
  | (Spin, s') => (Spin, s')
  end.

(** An expression evaluated inside a statement. *)
Definition lift {S A} (m : py A) : M S A := λ s,
  match m with
  | Ok a => (Val a, s)
  | Raise e => (Exc e, s)
  end.

Definition spin {S A} : M S A := λ s, (Spin, s).

(** [d[k]] on the pairs of a dict: the first binding of [k]. *)
Fixpoint dict_get {V} (d : list (string * V)) (k : string) : option V :=
  match d with
  | [] => None
  | (k', v) :: d' => if String.eqb k' k then Some v else dict_get d' k
  end.

Definition dict_keys {V} (d : list (string * V)) : list string := d.*1.

(** [d[k]] for a [Dict[str, object]]: [KeyError] when [k] is absent. *)
Definition dict_getitem {V} (d : list (string * V)) (k : string) : py V :=
  match dict_get d k with
  | Some v => Ok v
  | None => Raise (KeyError (PStr k))
  end.

(** [l[i]] for a Python list; a negative [i] counts from the end. *)
Definition list_getitem {A} (l : list A) (i : Z) : py A :=
  let j := if i <? 0 then i + Z.of_nat (length l) else i in
  if j <? 0 then Raise IndexError
  else match l !! Z.to_nat j with
       | Some x => Ok x
       | None => Raise IndexError
       end.

(** [v[k]] with a string subscript, on a value of unknown type. *)
Definition getitem_key (v : pyval) (k : string) : py pyval :=
  match v with
  | PDict d => dict_getitem d k
  | _ => Raise TypeError
  end.

(** [v[i]] with an integer subscript, on a value of unknown type.  The
    keys of a JSON object are strings, so an integer is never among them. *)
Definition getitem_index (v : pyval) (i : Z) : py pyval :=
  match v with
  | PList l => list_getitem l i
  | PStr s => c ← list_getitem (String.list_ascii_of_string s) i; Ok (PStr (String c ""))
  | PDict _ => Raise (KeyError (PInt i))
  | _ => Raise TypeError
  end.

(** ** The notebook: dataset preparation *)

Module Notebook.

(** A row of a Hugging Face dataset, as iteration yields it: a dict from
    column names to values.  [load_dataset] answers a dict of splits. *)
Definition Row := list (string * pyval).
Definition Dataset := list Row.
Definition DatasetDict := list (string * Dataset).

(** [Dataset.select(indices)]: an empty dataset is returned as it is,
    whatever the indices; in any other an index outside the dataset is an
    [IndexError]. *)
Definition select (ds : Dataset) (indices : list nat) : py Dataset :=
  match ds with
  | [] => Ok ds
  | _ :: _ => mapM (λ i, list_getitem ds (Z.of_nat i)) indices
  end.

(** The body of the [for] loop: one [append] to [evals_data_source]. *)
Definition append_example (evals_data_source : list pyval) (example : Row)
  : py (list pyval) :=
  media_url ← dict_getitem example "media_url";
  reference ← dict_getitem example "reference";
  prompt ← dict_getitem example "prompt";
  Ok (evals_data_source ++
        [PDict [("item", PDict [("media_url", media_url);
                                ("reference", reference);
                                ("prompt", prompt)])]]).

Fixpoint for_each {A B} (body : B → A → py B) (l : list A) (acc : B) : py B :=
  match l with
  | [] => Ok acc
  | x :: l' => acc' ← body acc x; for_each body l' acc'
  end.

(** The cell that fills [evals_data_source] from the first 3 examples of
    the "test" split. *)
Definition build_evals_data_source (dataset : DatasetDict) : py (list pyval) :=
  test ← dict_getitem dataset "test";
  first3 ← select test (seq 0 3);
  for_each append_example first3 [].

(** ** The notebook: eval configuration *)

Definition data_source_config : pyval :=
  PDict [("type", PStr "custom");
         ("item_schema",
          PDict [("type", PStr "object");
                 ("properties",
                  PDict [("media_url", PDict [("type", PStr "string")]);
                         ("reference", PDict [("type", PStr "string")]);
                         ("prompt", PDict [("type", PStr "string")])]);
                 ("required",
                  PList [PStr "media_url"; PStr "reference"; PStr "prompt"])]);
         ("include_sample_schema", PBool true)].

Definition grader_config : pyval :=
  PDict [("type", PStr "score_model");
         ("name", PStr "Score Model Grader");
         ("input",
          PList [PDict [("role", PStr "system");
                        ("content", PStr "You are an expert grader. Judge how well the model response suits the image and prompt as well as matches the meaniing of the reference answer. Output a score of 1 if great. If it's somewhat compatible, output a score around 0.5. Otherwise, give a score of 0.")];
                 PDict [("role", PStr "user");
                        ("content",
                         PList [PDict [("type", PStr "input_text");
                                       ("text", PStr "Prompt: {{ item.prompt }}.")];
                                PDict [("type", PStr "input_image");
                                       ("image_url", PStr "{{ item.media_url }}");
                                       ("detail", PStr "auto")];
                                PDict [("type", PStr "input_text");
                                       ("text", PStr "Reference answer: {{ item.reference }}. Model response: {{ sample.output_text }}.")]])]]);
         ("pass_threshold", PFloat (9 # 10));
         ("range", PList [PInt 0; PInt 1]);
         ("model", PStr "o4-mini")].

Definition sampling_messages : pyval :=
  PList [PDict [("role", PStr "user");
                ("type", PStr "message");
                ("content", PDict [("type", PStr "input_text");
                                   ("text", PStr "{{ item.prompt }}")])];
         PDict [("role", PStr "user");
                ("type", PStr "message");
                ("content", PDict [("type", PStr "input_image");
                                   ("image_url", PStr "{{ item.media_url }}");
                                   ("detail", PStr "auto")])]].

(** The [data_source] argument of [client.evals.runs.create]. *)
Definition run_data_source (evals_data_source : list pyval) : pyval :=
  PDict [("type", PStr "responses");
         ("source", PDict [("type", PStr "file_content");
                           ("content", PList evals_data_source)]);
         ("model", PStr "gpt-4o-mini");
         ("input_messages", PDict [("type", PStr "template");
                                   ("template", sampling_messages)])].

(** ** The objects the client answers with

    Only the attributes the notebook reads are kept. *)

Module EvalObject.
Record t := { id : string }.
End EvalObject.

Module Run.
Record t := { id : string; status : string }.
End Run.

Module SampleOutput.
Record t := { content : pyval }.
End SampleOutput.

Module Sample.
Record t := { output : list SampleOutput.t }.
End Sample.

Module OutputItem.
Record t := {
    datasource_item : list (string * pyval);
    results : list pyval;
    sample : Sample.t
  }.
End OutputItem.

(** ** The results table *)

(** A cell of a [pandas.DataFrame].  pandas infers one dtype for each
    column from the values it is given.  A column given strings only
    keeps each of them as it is.  In any other column a cell holds what
    pandas makes of the given value under the dtype of its column (an
    integer beside a float becomes a float, [None] may become NaN): that
    value is pandas' own and is left open, the cell records only what it
    was made from. *)
Inductive entry : Type :=
| Kept (s : string)
| Inferred (given : pyval).

(** The value a cell was made from. *)
Definition given (c : entry) : pyval :=
  match c with
  | Kept s => PStr s
  | Inferred v => v
  end.

Definition is_str (v : pyval) : bool :=
  match v with
  | PStr _ => true
  | _ => false
  end.

(** The cells of one column, from the list given for it. *)
Definition column_cells (values : list pyval) : list entry :=
  if forallb is_str values
  then (λ v, match v with PStr s => Kept s | _ => Inferred v end) <$> values
  else Inferred <$> values.

(** A [pandas.DataFrame] built from a dict of columns: the columns in
    insertion order, all of one length. *)
Record DataFrame := { columns : list (string * list entry) }.

Definition pd_DataFrame (data : list (string * list pyval)) : py DataFrame :=
  match data with
  | [] => Ok {| columns := [] |}
  | (_, c) :: rest =>
      if forallb (λ kc, Nat.eqb (length kc.2) (length c)) rest
      then Ok {| columns := (λ kc, (kc.1, column_cells kc.2)) <$> data |}
      else Raise ValueError
  end.

Definition nrows (df : DataFrame) : nat :=
  match columns df with
  | [] => 0%nat
  | (_, c) :: _ => length c
  end.

(** The cell of row [i] in column [name]. *)
Definition cell (df : DataFrame) (name : string) (i : nat) : option entry :=
  c ← dict_get (columns df) name; c !! i.

Definition prompt_of (item : OutputItem.t) : py pyval :=
  dict_getitem (OutputItem.datasource_item item) "prompt".

Definition reference_of (item : OutputItem.t) : py pyval :=
  dict_getitem (OutputItem.datasource_item item) "reference".

(** [item.sample.output[0].content] *)
Definition model_response_of (item : OutputItem.t) : py pyval :=
  o ← list_getitem (Sample.output (OutputItem.sample item)) 0;
  Ok (SampleOutput.content o).

(** [item.results[0]["sample"]["output"][0]["content"]] *)
Definition grading_results_of (item : OutputItem.t) : py pyval :=
  r ← list_getitem (OutputItem.results item) 0;
  s ← getitem_key r "sample";
  o ← getitem_key s "output";
  o0 ← getitem_index o 0;
  getitem_key o0 "content".

(** The [pd.DataFrame({...})] expression: four list comprehensions over
    [output_items], evaluated in the order of the dict literal. *)
Definition build_df (output_items : list OutputItem.t) : py DataFrame :=
  prompt ← mapM prompt_of output_items;
  reference ← mapM reference_of output_items;
  model_response ← mapM model_response_of output_items;
  grading_results ← mapM grading_results_of output_items;
  pd_DataFrame [("prompt", prompt);
                ("reference", reference);
                ("model_response", model_response);
                ("grading_results", grading_results)].

(** Every output item yields a string for the column that [f] reads. *)
Definition all_strings (f : OutputItem.t → py pyval)
    (output_items : list OutputItem.t) : Prop :=
  ∀ item, item ∈ output_items → ∃ s, f item = Ok (PStr s).

(** ** The client and the service behind it *)

(** What the notebook does to the outside, in order: each call on
    [client] with its arguments and what it returned, each [time.sleep],
    [display] and [print]. *)
Inductive event : Type :=
| EvalsCreate (name : string) (data_source_config testing_criteria : pyval)
    (ret : EvalObject.t)
| RunsCreate (name eval_id : string) (data_source : pyval) (ret : Run.t)
| RunsRetrieve (run_id eval_id : string) (ret : Run.t)
| OutputItemsList (run_id eval_id : string) (ret : list OutputItem.t)
| Sleep (seconds : Z)
| Display (df : DataFrame)
| Print (text : string).

(** The remote service, as far as the notebook sees it: what each call
    returns.  [retrieve n] answers the [n]-th call of
    [client.evals.runs.retrieve] (counted from 0), so that the status may
    change from one poll to the next.  Every call returns: a call that
    fails on the network is outside the model. *)
Record Service := {
  evals_create : string → pyval → pyval → EvalObject.t;
  runs_create : string → string → pyval → Run.t;
  retrieve : nat → string → string → Run.t;
  output_items : string → string → list OutputItem.t
}.

(** The kernel's state: the log of events and the number of polls made. *)
Record session := { log : list event; polls : nat }.

Definition emit (e : event) (s : session) : session :=
  {| log := log s ++ [e]; polls := polls s |}.

Section Client.
Context (svc : Service).

Definition client_evals_create (name : string) (dsc criteria : pyval)
  : M session EvalObject.t := λ s,
  let r := evals_create svc name dsc criteria in
  (Val r, emit (EvalsCreate name dsc criteria r) s).

Definition client_evals_runs_create (name eval_id : string) (ds : pyval)
  : M session Run.t := λ s,
  let r := runs_create svc name eval_id ds in
  (Val r, emit (RunsCreate name eval_id ds r) s).

Definition client_evals_runs_retrieve (run_id eval_id : string)
  : M session Run.t := λ s,
  let r := retrieve svc (polls s) run_id eval_id in
  (Val r, {| log := log s ++ [RunsRetrieve run_id eval_id r];
             polls := S (polls s) |}).

Definition client_evals_runs_output_items_list (run_id eval_id : string)
  : M session (list OutputItem.t) := λ s,
  let r := output_items svc run_id eval_id in
  (Val r, emit (OutputItemsList run_id eval_id r) s).

Definition time_sleep (seconds : Z) : M session unit := λ s,
  (Val (), emit (Sleep seconds) s).

Definition display (df : DataFrame) : M session unit := λ s,
  (Val (), emit (Display df) s).

Definition print (text : string) : M session unit := λ s,
  (Val (), emit (Print text) s).

(** ** Poll and display the results *)

(** [run.status == "completed" or run.status == "failed"] *)
Definition is_finished (run : Run.t) : bool :=
  String.eqb (Run.status run) "completed" || String.eqb (Run.status run) "failed".

(** The [if] branch of the loop body, up to its [break]. *)
Definition show_results (run : Run.t) (eval_object : EvalObject.t)
  : M session (list OutputItem.t) :=
  output_items ← client_evals_runs_output_items_list
                   (Run.id run) (EvalObject.id eval_object);
  df ← lift (build_df output_items);
  display df;;
  mret output_items.

(** The [while True] loop.  Each unit of fuel pays for one iteration; the
    loop leaves through [break] (returning the variable [output_items]
    that the next cell reads) or through an exception. *)
Fixpoint poll (fuel : nat) (eval_run : Run.t) (eval_object : EvalObject.t)
  : M session (list OutputItem.t) :=
  match fuel with
  | O => spin
  | S fuel' =>
      run ← client_evals_runs_retrieve
              (Run.id eval_run) (EvalObject.id eval_object);
      if is_finished run then show_results run eval_object
      else time_sleep 5;; poll fuel' eval_run eval_object
  end.

(** ** The whole notebook *)

Section Cells.
(** [json.dumps(dict(item), indent=2, default=str)]: the rendering is the
    [json] module's and is left open. *)
Context (json_dumps : OutputItem.t → string).

(** The code cells in order, from the dataset that [load_dataset]
    answered; an exception in a cell stops the run.  The cells that only
    install, import or build the [client] object leave no trace. *)
Definition notebook (fuel : nat) (dataset : DatasetDict) : M session unit :=
  evals_data_source ← lift (build_evals_data_source dataset);
  eval_object ← client_evals_create "Image Grading"
                  data_source_config (PList [grader_config]);
  eval_run ← client_evals_runs_create "Image Input Eval Run"
               (EvalObject.id eval_object)
               (run_data_source evals_data_source);
  output_items ← poll fuel eval_run eval_object;
  first_item ← lift (list_getitem output_items 0);
  print (json_dumps first_item).
End Cells.
End Client.

Definition start : session := {| log := []; polls := 0 |}.

(** The two statuses on which the loop leaves. *)
Definition terminal (status : string) : Prop :=
  status = "completed" ∨ status = "failed".

(** What [n] iterations that all see an unfinished run add to the log,
    the first of them making poll number [from]: a retrieval and a sleep
    each. *)
Definition waiting (svc : Service) (eval_run : Run.t)
    (eval_object : EvalObject.t) (from n : nat) : list event :=
  flat_map (λ j, [RunsRetrieve (Run.id eval_run) (EvalObject.id eval_object)
                    (retrieve svc j (Run.id eval_run) (EvalObject.id eval_object));
                  Sleep 5])
           (seq from n).

(** What the [if] branch adds to the log after the retrieval of [run]. *)
Definition shown (svc : Service) (run : Run.t) (eval_object : EvalObject.t)
  : list event :=
  let items := output_items svc (Run.id run) (EvalObject.id eval_object) in
  OutputItemsList (Run.id run) (EvalObject.id eval_object) items ::
  match build_df items with
  | Ok df => [Display df]
  | Raise _ => []
  end.

End Notebook.

(** ** The streaming example: [EventHandler] *)

Module Streaming.

(** One entry of [delta.code_interpreter.outputs]; an image output has no
    [logs], which is never read for it. *)
Module Output.
Record t := { type : string; logs : option string }.
End Output.

Module CodeInterpreter.
Record t := { input : option string; outputs : option (list Output.t) }.
End CodeInterpreter.

(** A tool-call delta; [code_interpreter] is [None] when the attribute
    holds no object. *)
Module ToolCallDelta.
Record t := { type : string; code_interpreter : option CodeInterpreter.t }.
End ToolCallDelta.

Definition nl : string := String (Ascii.ascii_of_nat 10) "".

(** What has been written to standard output: one entry per call of
    [print], the text followed by its [end]. *)
Definition stdout := list string.

Definition print (text end_ : string) : M stdout unit := λ out,
  (Val (), out ++ [text +:+ end_]).

(** [str(x)] of an optional string, as an f-string or [print] renders it. *)
Definition str (x : option string) : string :=
  match x with
  | Some s => s
  | None => "None"
  end.

(** Truth value of an optional string and of an optional list. *)
Definition truthy_str (x : option string) : bool :=
  match x with
  | Some s => negb (String.eqb s "")
  | None => false
  end.

Definition truthy_list {A} (x : option (list A)) : bool :=
  match x with
  | Some (_ :: _) => true
  | _ => false
  end.

(** [delta.code_interpreter.<attr>]: reading an attribute of [None] is an
    [AttributeError]. *)
Definition code_interpreter_attr {A} (delta : ToolCallDelta.t)
    (attr : string) (get : CodeInterpreter.t → A) : py A :=
  match ToolCallDelta.code_interpreter delta with
  | Some ci => Ok (get ci)
  | None => Raise (AttributeError attr)
  end.

Fixpoint for_ {S A} (l : list A) (body : A → M S unit) : M S unit :=
  match l with
  | [] => mret ()
  | x :: l' => body x;; for_ l' body
  end.

Definition on_text_created : M stdout unit :=
  print (nl +:+ "assistant > ") "".

Definition on_text_delta (value : string) : M stdout unit :=
  print value "".

Definition on_tool_call_created (tool_call_type : string) : M stdout unit :=
  print (nl +:+ "assistant > " +:+ tool_call_type +:+ nl) nl.

Definition on_tool_call_delta (delta : ToolCallDelta.t) : M stdout unit :=
  if String.eqb (ToolCallDelta.type delta) "code_interpreter" then
    input ← lift (code_interpreter_attr delta "input" CodeInterpreter.input);
    (if truthy_str input then print (str input) "" else mret ());;
    outputs ← lift (code_interpreter_attr delta "outputs" CodeInterpreter.outputs);
    if truthy_list outputs then
      print (nl +:+ nl +:+ "output >") nl;;
      for_ (default [] outputs) (λ output,
        if String.eqb (Output.type output) "logs"
        then print (nl +:+ str (Output.logs output)) nl
        else mret ())
    else mret ()
  else mret ().

End Streaming.

(** ** What a JSON Schema asks of a value

    The service checks every item of the data source against
    [item_schema]; this is the reading of the three keywords that schema
    uses ([type], [required], [properties] of primitive type). *)

Module JsonSchema.

Definition has_type (t : string) (v : pyval) : bool :=
  match v with
  | PNone => String.eqb t "null"
  | PBool _ => String.eqb t "boolean"
  | PInt _ => String.eqb t "integer" || String.eqb t "number"
  | PFloat _ => String.eqb t "number"
  | PStr _ => String.eqb t "string"
  | PList _ => String.eqb t "array"
  | PDict _ => String.eqb t "object"
  end.

Definition keyword (schema : pyval) (k : string) : option pyval :=
  match schema with
  | PDict d => dict_get d k
  | _ => None
  end.

Definition type_ok (schema v : pyval) : bool :=
  match keyword schema "type" with
  | Some (PStr t) => has_type t v
  | _ => true
  end.

(** The names listed under [required]. *)
Definition required (schema : pyval) : list string :=
  match keyword schema "required" with
  | Some (PList ks) =>
      omap (λ k, match k with PStr s => Some s | _ => None end) ks
  | _ => []
  end.

Definition required_ok (schema v : pyval) : bool :=
  match v with
  | PDict d => forallb (λ k, bool_decide (is_Some (dict_get d k))) (required schema)
  | _ => true
  end.

Definition properties_ok (schema v : pyval) : bool :=
  match keyword schema "properties", v with
  | Some (PDict props), PDict d =>
      forallb (λ p, match dict_get d p.1 with
                    | Some x => type_ok p.2 x
                    | None => true
                    end) props
  | _, _ => true
  end.

Definition valid (schema v : pyval) : bool :=
  type_ok schema v && required_ok schema v && properties_ok schema v.

End JsonSchema.

(** [data_source_config["item_schema"]] *)
Definition item_schema : pyval :=
  default PNone (JsonSchema.keyword Notebook.data_source_config "item_schema").

(** ** The streaming example: the Node.js listeners

    The second code sample of the same page registers four listeners on
    the stream.  A JavaScript property that is absent is [None] here. *)

Module Node.
Import Streaming.

(** [process.stdout.write(text)] *)
Definition write (text : string) : M stdout unit := λ out,
  (Val (), out ++ [text]).

(** A string inside a template literal. *)
Definition js_string (x : option string) : string :=
  match x with
  | Some s => s
  | None => "undefined"
  end.

(** Truth value of a string property: absent and empty are falsy. *)
Definition js_truthy_string (x : option string) : bool :=
  match x with
  | Some s => negb (String.eqb s "")
  | None => false
  end.

(** Truth value of an array property: every array is truthy, the empty
    one too. *)
Definition js_truthy_array {A} (x : option (list A)) : bool :=
  match x with
  | Some _ => true
  | None => false
  end.

(** [toolCallDelta.code_interpreter.<prop>]: reading a property of
    [undefined] throws a [TypeError]. *)
Definition code_interpreter_prop {A} (delta : ToolCallDelta.t)
    (get : CodeInterpreter.t → A) : py A :=
  match ToolCallDelta.code_interpreter delta with
  | Some ci => Ok (get ci)
  | None => Raise TypeError
  end.

Definition textCreated : M stdout unit :=
  write (nl +:+ "assistant > ").

Definition textDelta (value : string) : M stdout unit :=
  write value.

Definition toolCallCreated (toolCall_type : string) : M stdout unit :=
  write (nl +:+ "assistant > " +:+ toolCall_type +:+ nl +:+ nl).

Definition toolCallDelta (delta : ToolCallDelta.t) : M stdout unit :=
  if String.eqb (ToolCallDelta.type delta) "code_interpreter" then
    input ← lift (code_interpreter_prop delta CodeInterpreter.input);
    (if js_truthy_string input then write (js_string input) else mret ());;
    outputs ← lift (code_interpreter_prop delta CodeInterpreter.outputs);
    if js_truthy_array outputs then
      write (nl +:+ "output >" +:+ nl);;
      for_ (default [] outputs) (λ output,
        if String.eqb (Output.type output) "logs"
        then write (nl +:+ js_string (Output.logs output) +:+ nl)
        else mret ())
    else mret ()
  else mret ().

End Node.

(** ** Measures on what the notebook has done *)

(** The seconds asked of [time.sleep] over a stretch of log. *)
Definition slept (l : list Notebook.event) : Z :=
  foldr (λ e acc, match e with Notebook.Sleep seconds => seconds + acc | _ => acc end)
        0 l.

(** The two calls that create something on the service. *)
Definition is_create (e : Notebook.event) : bool :=
  match e with
  | Notebook.EvalsCreate _ _ _ _ | Notebook.RunsCreate _ _ _ _ => true
  | _ => false
  end.

(** What the dataset cell reads of an example. *)
Definition three_columns (example : Notebook.Row)
  : option pyval * option pyval * option pyval :=
  (dict_get example "media_url", dict_get example "reference",
   dict_get example "prompt").

(** The exceptions of a failed subscript. *)
Definition lookup_error (e : exn) : Prop :=
  e = IndexError ∨ e = TypeError ∨ ∃ key, e = KeyError key.

(** A code-interpreter delta with the given [input] and [outputs]. *)
Definition code_interpreter_delta (input : option string)
    (outputs : option (list Streaming.Output.t)) : Streaming.ToolCallDelta.t :=
  {| Streaming.ToolCallDelta.type := "code_interpreter";
     Streaming.ToolCallDelta.code_interpreter :=
       Some {| Streaming.CodeInterpreter.input := input;
               Streaming.CodeInterpreter.outputs := outputs |} |}.

(** ** Sample inputs, used to exercise the statements below *)

Module Samples.
Import Notebook.

Definition example_a : Row :=
  [("example_id", PStr "a"); ("prompt", PStr "What is this?");
   ("reference", PStr "A pizza.");
   ("media_url", PStr "https://example.org/a.jpg")].
Definition example_b : Row :=
  [("prompt", PStr "Is this vegan?"); ("reference", PStr "No.");
   ("media_url", PStr "https://example.org/b.jpg")].
Definition example_c : Row :=
  [("media_url", PStr "https://example.org/c.png");
   ("prompt", PStr "Transcribe."); ("reference", PStr "x = 1")].
Definition captioned (n : string) : Row :=
  [("media_url", PStr ("https://example.org/" +:+ n));
   ("reference", PStr "none"); ("caption", PStr "a picture")].
Definition example_null_reference : Row :=
  [("media_url", PStr "https://example.org/e.png"); ("reference", PNone);
   ("prompt", PStr "Describe.")].

Definition vibe_eval : DatasetDict :=
  [("test", [example_a; example_b; example_c; example_a])].
Definition dataset_missing_column : DatasetDict :=
  [("test", [captioned "d.png"; captioned "e.png"; captioned "f.png"])].
Definition dataset_null_value : DatasetDict :=
  [("test", [example_a; example_b; example_null_reference])].

Definition graded_item : OutputItem.t :=
  {| OutputItem.datasource_item :=
       [("prompt", PStr "What is this?"); ("media_url", PStr "https://example.org/a.jpg");
        ("reference", PStr "A pizza.")];
     OutputItem.results :=
       [PDict [("name", PStr "Score Model Grader");
               ("sample",
                PDict [("input", PList []);
                       ("output", PList [PDict [("role", PStr "assistant");
                                                ("content", PStr "{}")]])]);
               ("passed", PBool false)]];
     OutputItem.sample :=
       {| Sample.output := [{| SampleOutput.content := PStr "A pizza, I think." |}] |} |}.

Definition item_without_sample_output : OutputItem.t :=
  {| OutputItem.datasource_item := OutputItem.datasource_item graded_item;
     OutputItem.results := OutputItem.results graded_item;
     OutputItem.sample := {| Sample.output := [] |} |}.

Definition item_without_results : OutputItem.t :=
  {| OutputItem.datasource_item := OutputItem.datasource_item graded_item;
     OutputItem.results := [];
     OutputItem.sample := OutputItem.sample graded_item |}.

(** A service whose successive polls answer [statuses], then [last] for
    ever, and whose run has the output items [items]. *)
Definition service (statuses : list string) (last : string)
  (items : list OutputItem.t) : Service :=
  {| evals_create := λ _ _ _, {| EvalObject.id := "eval_1" |};
     runs_create := λ _ _ _, {| Run.id := "evalrun_1"; Run.status := "queued" |};
     retrieve := λ n run_id _,
       {| Run.id := run_id; Run.status := nth n statuses last |};
     output_items := λ _ _, items |}.

Definition logs_output : Streaming.Output.t :=
  {| Streaming.Output.type := "logs"; Streaming.Output.logs := Some "42" |}.
Definition image_output : Streaming.Output.t :=
  {| Streaming.Output.type := "image"; Streaming.Output.logs := None |}.
Definition code_delta : Streaming.ToolCallDelta.t :=
  {| Streaming.ToolCallDelta.type := "code_interpreter";
     Streaming.ToolCallDelta.code_interpreter :=
       Some {| Streaming.CodeInterpreter.input := Some "print(6 * 7)";
               Streaming.CodeInterpreter.outputs :=
                 Some [image_output; logs_output] |} |}.
Definition function_delta : Streaming.ToolCallDelta.t :=
  {| Streaming.ToolCallDelta.type := "function";
     Streaming.ToolCallDelta.code_interpreter := None |}.

Definition completing : Service :=
  service ["queued"; "in_progress"; "completed"] "completed" [graded_item].
Definition failing : Service :=
  service ["queued"; "in_progress"; "failed"] "failed" [graded_item].
Definition stuck : Service := service [] "in_progress" [].

Definition dumps (item : OutputItem.t) : string := "{...}".

Definition eval_1 : EvalObject.t := {| EvalObject.id := "eval_1" |}.
Definition evalrun_1 : Run.t := {| Run.id := "evalrun_1"; Run.status := "queued" |}.
Definition item_without_prompt : OutputItem.t :=
  {| OutputItem.datasource_item := [("reference", PStr "A pizza.")];
     OutputItem.results := [];
     OutputItem.sample := {| Sample.output := [] |} |}.

Definition completing_empty : Service :=
  service ["queued"; "completed"] "completed" [].
Definition completing_malformed : Service :=
  service ["queued"; "completed"] "completed" [graded_item; item_without_results].

Definition dataset_empty_test : DatasetDict :=
  [("train", [example_a; example_b; example_c]); ("test", [])].
Definition dataset_short : DatasetDict :=
  [("train", [example_a; example_b; example_c]); ("test", [example_a; example_b])].
Definition vibe_eval_longer : DatasetDict :=
  [("test", [example_b; example_a; example_c] ++ [captioned "g.png"; example_null_reference])].
Definition vibe_eval_reordered_columns : DatasetDict :=
  [("test", [[("media_url", PStr "https://example.org/b.jpg");
              ("reference", PStr "No."); ("prompt", PStr "Is this vegan?");
              ("category", PStr "food")];
             example_a; example_c])].

Definition code_delta_absent : Streaming.ToolCallDelta.t :=
  {| Streaming.ToolCallDelta.type := "code_interpreter";
     Streaming.ToolCallDelta.code_interpreter := None |}.
End Samples.

(** * Properties *)

Import Notebook.

(** ** Dataset preparation *)

Lemma dict_getitem_Some {V} (d : list (string * V)) k v :
  dict_get d k = Some v → dict_getitem d k = Ok v.
Proof. intros H. unfold dict_getitem. by rewrite H. Qed.

Lemma append_example_columns acc example media_url reference prompt :
  dict_get example "media_url" = Some media_url →
  dict_get example "reference" = Some reference →
  dict_get example "prompt" = Some prompt →
  append_example acc example =
    Ok (acc ++ [PDict [("item", PDict [("media_url", media_url);
                                      ("reference", reference);
                                      ("prompt", prompt)])]]).
Proof.
  intros Hm Hr Hp. unfold append_example.
  by rewrite (dict_getitem_Some _ _ _ Hm), (dict_getitem_Some _ _ _ Hr),
    (dict_getitem_Some _ _ _ Hp).
Qed.

Lemma item_schema_valid_strings (m r p : string) :
  JsonSchema.valid item_schema
    (PDict [("media_url", PStr m); ("reference", PStr r); ("prompt", PStr p)])
  = true.
Proof. reflexivity. Qed.

(** C7, as the code has it: when the "test" split has at least 3 examples
    and each of the first three has the columns "media_url", "reference"
    and "prompt", [evals_data_source] is a list of exactly 3 elements, the
    i-th being [{"item": d}] where [d] holds exactly those three keys with
    the values of the i-th example, in split order; the keys of [d] are
    the required keys of [item_schema], and [d] satisfies [item_schema]
    when the three values are strings. *)
Theorem evals_data_source_first_three (dataset : DatasetDict) (test : Dataset) :
  dict_get dataset "test" = Some test →
  (3 ≤ length test)%nat →
  (∀ i example, (i < 3)%nat → test !! i = Some example →
     is_Some (dict_get example "media_url") ∧
     is_Some (dict_get example "reference") ∧
     is_Some (dict_get example "prompt")) →
  ∃ evals_data_source,
    build_evals_data_source dataset = Ok evals_data_source ∧
    length evals_data_source = 3%nat ∧
    ∀ i, (i < 3)%nat →
      ∃ example media_url reference prompt,
        test !! i = Some example ∧
        dict_get example "media_url" = Some media_url ∧
        dict_get example "reference" = Some reference ∧
        dict_get example "prompt" = Some prompt ∧
        let d := [("media_url", media_url); ("reference", reference);
                  ("prompt", prompt)] in
        evals_data_source !! i = Some (PDict [("item", PDict d)]) ∧
        dict_keys d = JsonSchema.required item_schema ∧
        ((∃ m r p, media_url = PStr m ∧ reference = PStr r ∧ prompt = PStr p) →
         JsonSchema.valid item_schema (PDict d) = true).
Proof.
  intros Htest Hlen Hcols.
  destruct test as [|e0 [|e1 [|e2 rest]]]; simpl in Hlen; try lia.
  destruct (Hcols 0%nat e0) as ([m0 Hm0] & [r0 Hr0] & [p0 Hp0]); [lia|done|].
  destruct (Hcols 1%nat e1) as ([m1 Hm1] & [r1 Hr1] & [p1 Hp1]); [lia|done|].
  destruct (Hcols 2%nat e2) as ([m2 Hm2] & [r2 Hr2] & [p2 Hp2]); [lia|done|].
  eexists. split; [|split].
  - unfold build_evals_data_source.
    rewrite (dict_getitem_Some _ _ _ Htest). simpl.
    rewrite (append_example_columns _ _ _ _ _ Hm0 Hr0 Hp0). simpl.
    rewrite (append_example_columns _ _ _ _ _ Hm1 Hr1 Hp1). simpl.
    rewrite (append_example_columns _ _ _ _ _ Hm2 Hr2 Hp2). simpl.
    reflexivity.
  - reflexivity.
  - intros i Hi.
    destruct i as [|[|[|i]]]; [| | |lia].
    + exists e0, m0, r0, p0. repeat split; try done.
      intros (m & r & p & -> & -> & ->). apply item_schema_valid_strings.
    + exists e1, m1, r1, p1. repeat split; try done.
      intros (m & r & p & -> & -> & ->). apply item_schema_valid_strings.
    + exists e2, m2, r2, p2. repeat split; try done.
      intros (m & r & p & -> & -> & ->). apply item_schema_valid_strings.
Qed.

Lemma evals_data_source_first_three_witness :
  ∃ evals_data_source,
    build_evals_data_source Samples.vibe_eval = Ok evals_data_source ∧
    length evals_data_source = 3%nat.
Proof.
  destruct (evals_data_source_first_three Samples.vibe_eval
              [Samples.example_a; Samples.example_b; Samples.example_c;
               Samples.example_a]) as (src & Hsrc & Hlen & _).
  - reflexivity.
  - simpl. lia.
  - intros i example Hi Hex.
    destruct i as [|[|[|i]]]; [| | |lia];
      simpl in Hex; injection Hex as <-;
      repeat split; eexists; reflexivity.
  - exists src. split; assumption.
Defined.

(** C7 as stated fails in two ways: a dataset whose "test" split has 3
    examples but no column "prompt" makes the cell raise [KeyError]; and
    a value that is not a string is copied as it is and does not satisfy
    [item_schema]. *)
Lemma evals_data_source_as_stated_fails :
  (∃ test,
     dict_get Samples.dataset_missing_column "test" = Some test
     ∧ length test = 3%nat
     ∧ build_evals_data_source Samples.dataset_missing_column
       = Raise (KeyError (PStr "prompt")))
  ∧ (∃ test src d,
       dict_get Samples.dataset_null_value "test" = Some test
       ∧ length test = 3%nat
       ∧ build_evals_data_source Samples.dataset_null_value = Ok src
       ∧ src !! 2%nat = Some (PDict [("item", PDict d)])
       ∧ JsonSchema.valid item_schema (PDict d) = false).
Proof.
  split.
  - eexists. repeat split.
  - eexists _, _, _. repeat split.
Qed.

(** ** The polling loop *)

Lemma is_finished_terminal (run : Run.t) :
  is_finished run = true ↔ terminal (Run.status run).
Proof.
  unfold is_finished, terminal.
  rewrite orb_true_iff, !String.eqb_eq. reflexivity.
Qed.

Lemma is_finished_not_terminal (run : Run.t) :
  is_finished run = false ↔ ¬ terminal (Run.status run).
Proof.
  rewrite <- is_finished_terminal. destruct (is_finished run); split; congruence.
Qed.

Section Polling.
Context (svc : Service) (eval_run : Run.t) (eval_object : EvalObject.t).

Local Abbreviation rid := (Run.id eval_run).
Local Abbreviation eid := (EvalObject.id eval_object).
Local Abbreviation run_at n :=
  (retrieve svc n (Run.id eval_run) (EvalObject.id eval_object)).

Lemma show_results_run (run : Run.t) (s : session) :
  show_results svc run eval_object s =
  (match build_df (output_items svc (Run.id run) eid) with
   | Ok _ => Val (output_items svc (Run.id run) eid)
   | Raise e => Exc e
   end,
   {| log := log s ++ shown svc run eval_object; polls := polls s |}).
Proof.
  unfold show_results, shown, mbind, M_bind, client_evals_runs_output_items_list,
    lift, display, emit. simpl.
  destruct (build_df _); simpl; by rewrite <- ?app_assoc.
Qed.

Lemma poll_unfinished (fuel : nat) (s : session) :
  is_finished (run_at (polls s)) = false →
  poll svc (S fuel) eval_run eval_object s =
  poll svc fuel eval_run eval_object
    {| log := log s ++ [RunsRetrieve rid eid (run_at (polls s)); Sleep 5];
       polls := S (polls s) |}.
Proof.
  intros Hrun. simpl.
  unfold mbind, M_bind, client_evals_runs_retrieve at 1. simpl.
  rewrite Hrun. unfold time_sleep, emit. simpl. by rewrite <- app_assoc.
Qed.

Lemma poll_finished (fuel : nat) (s : session) :
  is_finished (run_at (polls s)) = true →
  poll svc (S fuel) eval_run eval_object s =
  show_results svc (run_at (polls s)) eval_object
    {| log := log s ++ [RunsRetrieve rid eid (run_at (polls s))];
       polls := S (polls s) |}.
Proof.
  intros Hrun. simpl.
  unfold mbind, M_bind, client_evals_runs_retrieve at 1. simpl.
  by rewrite Hrun.
Qed.

Lemma waiting_S (from n : nat) :
  waiting svc eval_run eval_object from (S n) =
  RunsRetrieve rid eid (run_at from) :: Sleep 5 ::
  waiting svc eval_run eval_object (S from) n.
Proof. reflexivity. Qed.

Lemma poll_waits (n fuel : nat) (s : session) :
  (∀ j, (j < n)%nat → is_finished (run_at (polls s + j)) = false) →
  poll svc (n + fuel) eval_run eval_object s =
  poll svc fuel eval_run eval_object
    {| log := log s ++ waiting svc eval_run eval_object (polls s) n;
       polls := polls s + n |}.
Proof.
  revert s. induction n as [|n IH]; intros s Hwait.
  - destruct s as [l p]. simpl. by rewrite app_nil_r, Nat.add_0_r.
  - replace (S n + fuel)%nat with (S (n + fuel)) by lia.
    rewrite poll_unfinished.
    2:{ specialize (Hwait 0%nat). rewrite Nat.add_0_r in Hwait. apply Hwait. lia. }
    rewrite IH; simpl.
    + rewrite waiting_S, <- app_assoc. simpl.
      by replace (S (polls s + n)) with (polls s + S n)%nat by lia.
    + intros j Hj. specialize (Hwait (S j)).
      replace (polls s + S j)%nat with (S (polls s + j)) in Hwait by lia.
      apply Hwait. lia.
Qed.

Lemma poll_leaves (k fuel : nat) (s : session) :
  (∀ j, (j < k)%nat → is_finished (run_at (polls s + j)) = false) →
  is_finished (run_at (polls s + k)) = true →
  poll svc (k + S fuel) eval_run eval_object s =
  (match build_df (output_items svc (Run.id (run_at (polls s + k))) eid) with
   | Ok _ => Val (output_items svc (Run.id (run_at (polls s + k))) eid)
   | Raise e => Exc e
   end,
   {| log := log s ++ waiting svc eval_run eval_object (polls s) k ++
             RunsRetrieve rid eid (run_at (polls s + k)) ::
             shown svc (run_at (polls s + k)) eval_object;
      polls := polls s + S k |}).
Proof.
  intros Hwait Hk.
  rewrite poll_waits by done.
  rewrite poll_finished by done.
  rewrite show_results_run. simpl.
  rewrite <- !app_assoc. simpl.
  by replace (S (polls s + k)) with (polls s + S k)%nat by lia.
Qed.

Lemma poll_left (fuel : nat) (s : session) r s' :
  poll svc fuel eval_run eval_object s = (r, s') →
  r ≠ Spin →
  ∃ k, (k < fuel)%nat ∧
       (∀ j, (j < k)%nat → is_finished (run_at (polls s + j)) = false) ∧
       is_finished (run_at (polls s + k)) = true ∧
       polls s' = (polls s + S k)%nat.
Proof.
  revert s. induction fuel as [|fuel IH]; intros s Hpoll Hr.
  - injection Hpoll as <- _. done.
  - destruct (is_finished (run_at (polls s))) eqn:Hnow.
    + exists 0%nat. rewrite Nat.add_0_r. repeat split; [lia|lia|done|].
      rewrite poll_finished, show_results_run in Hpoll by done.
      injection Hpoll as _ <-. simpl. lia.
    + rewrite poll_unfinished in Hpoll by done.
      destruct (IH _ Hpoll Hr) as (k & Hk & Hwait & Hfin & Hpolls).
      simpl in Hwait, Hfin, Hpolls.
      exists (S k). repeat split; [lia| |..].
      * intros [|j] Hj; [by rewrite Nat.add_0_r|].
        replace (polls s + S j)%nat with (S (polls s + j)) by lia.
        apply Hwait. lia.
      * by replace (polls s + S k)%nat with (S (polls s + k)) by lia.
      * lia.
Qed.

(** C1.  The loop leaves on, and only on, a retrieval whose status is
    "completed" or "failed".  On any other status an iteration adds to
    the log its retrieval and a sleep, nothing else, and goes on with the
    next poll; when poll number [k] is the first with a terminal status and
    there is fuel for it, the loop has left (by [break], or by an
    exception of the table construction) after exactly [k + 1] polls,
    with the listing and the display as its only other events; and
    whenever the loop has left, its last poll saw the first terminal
    status. *)
Theorem poll_exits_on_terminal_only (s : session) :
  (∀ fuel, ¬ terminal (Run.status (run_at (polls s))) →
     poll svc (S fuel) eval_run eval_object s =
     poll svc fuel eval_run eval_object
       {| log := log s ++ [RunsRetrieve rid eid (run_at (polls s)); Sleep 5];
          polls := S (polls s) |})
  ∧ (∀ k fuel,
       (∀ j, (j < k)%nat → ¬ terminal (Run.status (run_at (polls s + j)))) →
       terminal (Run.status (run_at (polls s + k))) →
       (k < fuel)%nat →
       ∃ r s',
         poll svc fuel eval_run eval_object s = (r, s') ∧ r ≠ Spin ∧
         polls s' = (polls s + S k)%nat ∧
         log s' = log s ++ waiting svc eval_run eval_object (polls s) k ++
                  RunsRetrieve rid eid (run_at (polls s + k)) ::
                  shown svc (run_at (polls s + k)) eval_object)
  ∧ (∀ fuel r s',
       poll svc fuel eval_run eval_object s = (r, s') → r ≠ Spin →
       ∃ k, (k < fuel)%nat ∧
            (∀ j, (j < k)%nat → ¬ terminal (Run.status (run_at (polls s + j)))) ∧
            terminal (Run.status (run_at (polls s + k))) ∧
            polls s' = (polls s + S k)%nat).
Proof.
  split; [|split].
  - intros fuel Hrun. apply poll_unfinished. by apply is_finished_not_terminal.
  - intros k fuel Hwait Hk Hfuel.
    replace fuel with (k + S (fuel - S k))%nat by lia.
    eexists _, _. split; [apply poll_leaves|].
    + intros j Hj. by apply is_finished_not_terminal, Hwait.
    + by apply is_finished_terminal.
    + repeat split. by destruct (build_df _).
  - intros fuel r s' Hpoll Hr.
    destruct (poll_left _ _ _ _ Hpoll Hr) as (k & Hk & Hwait & Hfin & Hpolls).
    exists k. repeat split; [done| |by apply is_finished_terminal|done].
    intros j Hj. by apply is_finished_not_terminal, Hwait.
Qed.

(** C3.  No timeout, no cancellation: when no poll ever answers
    "completed" or "failed", the loop is still running after any number
    of iterations, having polled and slept once in each. *)
Theorem poll_never_terminates (s : session) :
  (∀ j, ¬ terminal (Run.status (run_at (polls s + j)))) →
  ∀ fuel,
    poll svc fuel eval_run eval_object s =
    (Spin, {| log := log s ++ waiting svc eval_run eval_object (polls s) fuel;
              polls := polls s + fuel |}).
Proof.
  intros Hnever fuel.
  rewrite <- (Nat.add_0_r fuel) at 1.
  rewrite poll_waits; [done|].
  intros j _. apply is_finished_not_terminal, Hnever.
Qed.

Lemma poll_paced (fuel : nat) (s : session) :
  ∃ added,
    log (poll svc fuel eval_run eval_object s).2 = log s ++ added ∧
    (added = [] ∨ ∃ run rest, added = RunsRetrieve rid eid run :: rest) ∧
    (∀ i seconds, added !! i = Some (Sleep seconds) → seconds = 5) ∧
    (∀ i a b run, added !! i = Some (RunsRetrieve a b run) →
       ¬ terminal (Run.status run) → added !! S i = Some (Sleep 5)) ∧
    (∀ i seconds, added !! i = Some (Sleep seconds) → (S i < length added)%nat →
       ∃ run, added !! S i = Some (RunsRetrieve rid eid run)).
Proof.
  revert s. induction fuel as [|fuel IH]; intros s.
  - exists []. simpl. rewrite app_nil_r. repeat split; eauto; intros; done.
  - destruct (is_finished (run_at (polls s))) eqn:Hnow.
    + rewrite poll_finished, show_results_run by done. simpl.
      exists (RunsRetrieve rid eid (run_at (polls s)) ::
              shown svc (run_at (polls s)) eval_object).
      rewrite <- app_assoc. split; [done|]. split; [eauto|].
      unfold shown. destruct (build_df _) as [df|e]; (repeat split).
      all: try (intros [|[|[|i]]] ?; intros; simplify_eq/=; fail).
      all: intros [|[|[|i]]] a b run Hi Hrun; simplify_eq/=.
      all: by apply is_finished_terminal in Hnow.
    + rewrite poll_unfinished by done.
      destruct (IH {| log := log s ++ [RunsRetrieve rid eid (run_at (polls s)); Sleep 5];
                      polls := S (polls s) |})
        as (added & Hlog & Hhead & Hfive & Hsleeps & Hnext).
      exists (RunsRetrieve rid eid (run_at (polls s)) :: Sleep 5 :: added).
      rewrite Hlog. simpl. rewrite <- app_assoc. split; [done|]. split; [eauto|].
      repeat split.
      * intros [|[|i]] seconds Hi; simplify_eq/=; eauto.
      * intros [|[|i]] a b run Hi Hrun; simplify_eq/=; eauto.
      * intros [|[|i]] seconds Hi Hlen; simplify_eq/=.
        -- destruct Hhead as [->|(run & rest & ->)]; simpl in Hlen; [lia|eauto].
        -- eapply Hnext; [done|lia].
Qed.

(** C4.  A fixed interval, no backoff: in what the loop adds to the log,
    every sleep lasts exactly 5 seconds, every retrieval that does not see
    a terminal status is followed at once by such a sleep, and what
    follows a sleep is the next retrieval. *)
Theorem poll_sleeps_five_seconds (fuel : nat) (s : session) :
  ∃ added,
    log (poll svc fuel eval_run eval_object s).2 = log s ++ added ∧
    (∀ i seconds, added !! i = Some (Sleep seconds) → seconds = 5) ∧
    (∀ i a b run, added !! i = Some (RunsRetrieve a b run) →
       ¬ terminal (Run.status run) → added !! S i = Some (Sleep 5)) ∧
    (∀ i seconds, added !! i = Some (Sleep seconds) → (S i < length added)%nat →
       ∃ run, added !! S i = Some (RunsRetrieve rid eid run)).
Proof.
  destruct (poll_paced fuel s) as (added & Hlog & _ & Hpaced).
  by exists added.
Qed.

End Polling.

Lemma poll_exits_on_terminal_only_witness :
  (poll Samples.completing 4 Samples.evalrun_1 Samples.eval_1 start =
   poll Samples.completing 3 Samples.evalrun_1 Samples.eval_1
     {| log := [RunsRetrieve "evalrun_1" "eval_1"
                  {| Run.id := "evalrun_1"; Run.status := "queued" |};
                Sleep 5];
        polls := 1 |})
  ∧ (∃ r s', poll Samples.completing 4 Samples.evalrun_1 Samples.eval_1 start
             = (r, s') ∧ r ≠ Spin ∧ polls s' = 3%nat)
  ∧ (∃ k, (k < 4)%nat ∧
          terminal (Run.status (retrieve Samples.completing k "evalrun_1" "eval_1"))).
Proof.
  destruct (poll_exits_on_terminal_only Samples.completing Samples.evalrun_1
              Samples.eval_1 start) as (Hwait & Hexit & Honly).
  split; [|split].
  - apply (Hwait 3%nat). intros [H|H]; discriminate H.
  - destruct (Hexit 2%nat 4%nat) as (r & s' & Hpoll & Hr & Hpolls & _).
    + intros [|[|j]] Hj; [| |lia]; intros [H|H]; discriminate H.
    + by left.
    + lia.
    + by exists r, s'.
  - destruct (Honly 4%nat
                (Val [Samples.graded_item])
                (poll Samples.completing 4 Samples.evalrun_1 Samples.eval_1 start).2)
      as (k & Hk & _ & Hterm & _).
    + reflexivity.
    + discriminate.
    + by exists k.
Defined.

Lemma poll_sleeps_five_seconds_witness :
  ∃ added,
    log (poll Samples.completing 4 Samples.evalrun_1 Samples.eval_1 start).2 = added
    ∧ added !! 1%nat = Some (Sleep 5) ∧ added !! 3%nat = Some (Sleep 5)
    ∧ length added = 7%nat.
Proof.
  destruct (poll_sleeps_five_seconds Samples.completing Samples.evalrun_1
              Samples.eval_1 4 start) as (added & Hlog & _ & Hsleeps & _).
  simpl in Hlog. exists added. split; [done|].
  split; [|split].
  - eapply (Hsleeps 0%nat).
    + rewrite <- Hlog. reflexivity.
    + intros [H|H]; discriminate H.
  - eapply (Hsleeps 2%nat).
    + rewrite <- Hlog. reflexivity.
    + intros [H|H]; discriminate H.
  - rewrite <- Hlog. reflexivity.
Defined.

Lemma poll_never_terminates_witness :
  ∃ s', poll Samples.stuck 7 Samples.evalrun_1 Samples.eval_1 start = (Spin, s')
        ∧ polls s' = 7%nat.
Proof.
  eexists. split.
  - apply (poll_never_terminates Samples.stuck Samples.evalrun_1 Samples.eval_1 start).
    intros [|j] [H|H]; discriminate H.
  - reflexivity.
Defined.

(** C5.  A run that ends "failed" is handled as one that ends
    "completed": with the same output items behind them, the iteration
    that retrieves either lists the output items, builds the table and
    displays it in the same way, returns or raises the same, and leaves
    the loop after that one poll. *)
Theorem failed_run_shown_like_completed (svc_c svc_f : Service)
    (eval_run : Run.t) (eval_object : EvalObject.t) (s : session) (fuel : nat) :
  let run_c := retrieve svc_c (polls s) (Run.id eval_run) (EvalObject.id eval_object) in
  let run_f := retrieve svc_f (polls s) (Run.id eval_run) (EvalObject.id eval_object) in
  Run.status run_c = "completed" →
  Run.status run_f = "failed" →
  Run.id run_c = Run.id run_f →
  output_items svc_c = output_items svc_f →
  ∃ r items,
    items = output_items svc_c (Run.id run_c) (EvalObject.id eval_object) ∧
    let after :=
      OutputItemsList (Run.id run_c) (EvalObject.id eval_object) items ::
      match build_df items with Ok df => [Display df] | Raise _ => [] end in
    r ≠ Spin ∧
    poll svc_c (S fuel) eval_run eval_object s =
      (r, {| log := log s ++
               RunsRetrieve (Run.id eval_run) (EvalObject.id eval_object) run_c :: after;
             polls := S (polls s) |}) ∧
    poll svc_f (S fuel) eval_run eval_object s =
      (r, {| log := log s ++
               RunsRetrieve (Run.id eval_run) (EvalObject.id eval_object) run_f :: after;
             polls := S (polls s) |}).
Proof.
  intros run_c run_f Hc Hf Hid Hitems.
  eexists _, _. split; [reflexivity|]. cbv zeta. split; [|split].
  2:{ rewrite poll_finished, show_results_run.
      - simpl. rewrite <- app_assoc. reflexivity.
      - apply is_finished_terminal. by left. }
  - by destruct (build_df _).
  - rewrite poll_finished, show_results_run.
    + simpl. rewrite <- app_assoc. unfold shown. fold run_f.
      by rewrite <- Hid, <- Hitems.
    + apply is_finished_terminal. by right.
Qed.

Lemma failed_run_shown_like_completed_witness :
  ∃ r after,
    r ≠ Spin ∧
    poll Samples.completing 1 Samples.evalrun_1 Samples.eval_1
      {| log := []; polls := 2 |} =
      (r, {| log := RunsRetrieve "evalrun_1" "eval_1"
                      {| Run.id := "evalrun_1"; Run.status := "completed" |} :: after;
             polls := 3 |}) ∧
    poll Samples.failing 1 Samples.evalrun_1 Samples.eval_1
      {| log := []; polls := 2 |} =
      (r, {| log := RunsRetrieve "evalrun_1" "eval_1"
                      {| Run.id := "evalrun_1"; Run.status := "failed" |} :: after;
             polls := 3 |}).
Proof.
  destruct (failed_run_shown_like_completed Samples.completing Samples.failing
              Samples.evalrun_1 Samples.eval_1 {| log := []; polls := 2 |} 0)
    as (r & items & _ & Hr & Hc & Hf); try reflexivity.
  exists r. eexists. split; [exact Hr|]. split; [exact Hc|exact Hf].
Defined.

(** ** The order of the calls *)

Section Sequence.
Context (svc : Service) (json_dumps : OutputItem.t → string).

(** The cells before the loop, run from an empty log. *)
Lemma notebook_reaches_poll (dataset : DatasetDict)
    (evals_data_source : list pyval) (fuel : nat) :
  build_evals_data_source dataset = Ok evals_data_source →
  let eval_object :=
    evals_create svc "Image Grading" data_source_config (PList [grader_config]) in
  let eval_run :=
    runs_create svc "Image Input Eval Run" (EvalObject.id eval_object)
      (run_data_source evals_data_source) in
  notebook svc json_dumps fuel dataset start =
  match poll svc fuel eval_run eval_object
          {| log := [EvalsCreate "Image Grading" data_source_config
                       (PList [grader_config]) eval_object;
                     RunsCreate "Image Input Eval Run" (EvalObject.id eval_object)
                       (run_data_source evals_data_source) eval_run];
             polls := 0 |} with
  | (Val output_items, s) =>
      match output_items with
      | first_item :: _ => (Val (), emit (Print (json_dumps first_item)) s)
      | [] => (Exc IndexError, s)
      end
  | (Exc e, s) => (Exc e, s)
  | (Spin, s) => (Spin, s)
  end.
Proof.
  intros Hbuild eval_object eval_run.
  unfold notebook, mbind, M_bind. rewrite Hbuild. simpl.
  fold eval_object. fold eval_run.
  destruct (poll svc fuel eval_run eval_object _) as [[items|e|] s]; try done.
  by destruct items.
Qed.

(** C2.  When the dataset cell has compiled [evals_data_source], the log
    of the notebook starts with the creation of the eval and then of the
    run, the latter with the id of the eval just created and with
    [evals_data_source] as the content of its data source; retrievals
    follow, a sleep after each that is not terminal; the output items are
    listed, and the table and the first item printed, only after the
    first retrieval with a terminal status; as long as none is seen
    nothing but retrievals and sleeps follows the two creations. *)
Theorem notebook_call_sequence (dataset : DatasetDict)
    (evals_data_source : list pyval) (fuel : nat) :
  build_evals_data_source dataset = Ok evals_data_source →
  let eval_object :=
    evals_create svc "Image Grading" data_source_config (PList [grader_config]) in
  let eval_run :=
    runs_create svc "Image Input Eval Run" (EvalObject.id eval_object)
      (run_data_source evals_data_source) in
  let created :=
    [EvalsCreate "Image Grading" data_source_config (PList [grader_config])
       eval_object;
     RunsCreate "Image Input Eval Run" (EvalObject.id eval_object)
       (run_data_source evals_data_source) eval_run] in
  let run_at n :=
    retrieve svc n (Run.id eval_run) (EvalObject.id eval_object) in
  let trace := log (notebook svc json_dumps fuel dataset start).2 in
  (source ← getitem_key (run_data_source evals_data_source) "source";
   getitem_key source "content") = Ok (PList evals_data_source)
  ∧ ((∀ j, (j < fuel)%nat → ¬ terminal (Run.status (run_at j))) →
     trace = created ++ waiting svc eval_run eval_object 0 fuel)
  ∧ (∀ k, (k < fuel)%nat →
       (∀ j, (j < k)%nat → ¬ terminal (Run.status (run_at j))) →
       terminal (Run.status (run_at k)) →
       ∃ items,
         items = output_items svc (Run.id (run_at k)) (EvalObject.id eval_object) ∧
         trace = created ++ waiting svc eval_run eval_object 0 k ++
                RunsRetrieve (Run.id eval_run) (EvalObject.id eval_object) (run_at k) ::
                OutputItemsList (Run.id (run_at k)) (EvalObject.id eval_object) items ::
                match build_df items with
                | Ok df =>
                    Display df ::
                    match items with
                    | first_item :: _ => [Print (json_dumps first_item)]
                    | [] => []
                    end
                | Raise _ => []
                end).
Proof.
  intros Hbuild eval_object eval_run created run_at trace.
  subst trace. rewrite (notebook_reaches_poll _ _ _ Hbuild).
  fold eval_object. fold eval_run. fold created.
  split; [reflexivity|]. split.
  - intros Hwait.
    pose proof (poll_waits svc eval_run eval_object fuel 0
                  {| log := created; polls := 0 |}) as Hpoll.
    rewrite Nat.add_0_r in Hpoll. rewrite Hpoll; [done|].
    intros j Hj. by apply is_finished_not_terminal, Hwait.
  - intros k Hk Hwait Hterm. eexists. split; [reflexivity|].
    pose proof (poll_leaves svc eval_run eval_object k (fuel - S k)
                  {| log := created; polls := 0 |}) as Hpoll.
    replace (k + S (fuel - S k))%nat with fuel in Hpoll by lia.
    rewrite Hpoll.
    + simpl. fold eval_object. fold eval_run. fold (run_at k).
      unfold shown. fold eval_object. fold eval_run. fold (run_at k).
      destruct (build_df _) as [df|e]; [|done].
      destruct (output_items svc _ _) as [|first_item rest]; simpl; [done|].
      rewrite <- !app_assoc. reflexivity.
    + intros j Hj. by apply is_finished_not_terminal, Hwait.
    + by apply is_finished_terminal.
Qed.

End Sequence.

Lemma notebook_call_sequence_witness :
  ∃ created polled df,
    length created = 2%nat ∧ length polled = 4%nat ∧
    log (notebook Samples.completing Samples.dumps 4 Samples.vibe_eval start).2 =
    created ++ polled ++
    [RunsRetrieve "evalrun_1" "eval_1"
       {| Run.id := "evalrun_1"; Run.status := "completed" |};
     OutputItemsList "evalrun_1" "eval_1" [Samples.graded_item];
     Display df; Print "{...}"].
Proof.
  destruct (notebook_call_sequence Samples.completing Samples.dumps
              Samples.vibe_eval _ 4 eq_refl) as (_ & _ & Hdone).
  destruct (Hdone 2%nat) as (items & -> & Hlog).
  - lia.
  - intros [|[|j]] Hj; [| |lia]; intros [H|H]; discriminate H.
  - by left.
  - eexists _, _, _. split; [|split; [|exact Hlog]]; reflexivity.
Defined.

(** ** The results table *)

Section Comprehension.
Context {A B : Type} (f : A → py B).

Lemma mapM_Ok_Forall2 (l : list A) (k : list B) :
  mapM f l = Ok k ↔ Forall2 (λ x y, f x = Ok y) l k.
Proof.
  revert k. induction l as [|x l IH]; intros k; simpl.
  - split.
    + intros [= <-]. constructor.
    + intros Hk. by inversion Hk.
  - split.
    + destruct (f x) as [y|e] eqn:Hx; simpl; [|done].
      destruct (mapM f l) as [k'|e] eqn:Hl; simpl; [|done].
      intros [= <-]. constructor; [done|]. by apply IH.
    + intros Hk. inversion Hk as [|? y ? k' Hx Hl]; subst.
      rewrite Hx. simpl. apply IH in Hl. rewrite Hl. done.
Qed.

Lemma mapM_raises (l : list A) (x : A) :
  x ∈ l → raises (f x) → raises (mapM f l).
Proof.
  intros Hx [e He].
  destruct (mapM f l) as [k|e'] eqn:Hl; [|by eexists].
  apply mapM_Ok_Forall2 in Hl.
  apply list_elem_of_lookup in Hx as [i Hi].
  destruct (Forall2_lookup_l _ _ _ _ _ Hl Hi) as (y & _ & Hy). congruence.
Qed.

End Comprehension.

Lemma list_getitem_0 {A} (l : list A) (x : A) :
  list_getitem l 0 = Ok x ↔ l !! 0%nat = Some x.
Proof.
  unfold list_getitem. change (Z.to_nat _) with 0%nat. simpl.
  destruct (l !! 0%nat); split; congruence.
Qed.

Lemma list_getitem_0_nil {A} : list_getitem (@nil A) 0 = Raise IndexError.
Proof. reflexivity. Qed.

Lemma length_column_cells (values : list pyval) :
  length (column_cells values) = length values.
Proof.
  unfold column_cells. destruct (forallb is_str values); apply length_fmap.
Qed.

Lemma column_cells_lookup (values : list pyval) (i : nat) (v : pyval) :
  values !! i = Some v →
  ∃ c, column_cells values !! i = Some c ∧ given c = v ∧
       (forallb is_str values = true → ∃ s, c = Kept s).
Proof.
  intros Hv. unfold column_cells.
  destruct (forallb is_str values) eqn:Hstr;
    rewrite list_lookup_fmap, Hv; simpl; eexists; (split; [done|]).
  - assert (is_str v = true) as Hs.
    { eapply forallb_forall; [exact Hstr|].
      apply list_elem_of_In, list_elem_of_lookup. eauto. }
    destruct v; try done. eauto.
  - split; [done|]. discriminate.
Qed.

Lemma all_strings_column (f : OutputItem.t → py pyval)
    (output_items : list OutputItem.t) (values : list pyval) :
  Forall2 (λ item y, f item = Ok y) output_items values →
  all_strings f output_items →
  forallb is_str values = true.
Proof.
  intros Hvalues Hall. apply forallb_forall. intros v Hv.
  apply list_elem_of_In, list_elem_of_lookup in Hv as [i Hi].
  destruct (Forall2_lookup_r _ _ _ _ _ Hvalues Hi) as (item & Hitem & Hf).
  destruct (Hall item) as [s Hs]; [apply list_elem_of_lookup; eauto|].
  rewrite Hf in Hs. by injection Hs as ->.
Qed.

Lemma build_df_Ok (output_items : list OutputItem.t) (df : DataFrame) :
  build_df output_items = Ok df ↔
  ∃ ps rs ms gs,
    Forall2 (λ item y, prompt_of item = Ok y) output_items ps ∧
    Forall2 (λ item y, reference_of item = Ok y) output_items rs ∧
    Forall2 (λ item y, model_response_of item = Ok y) output_items ms ∧
    Forall2 (λ item y, grading_results_of item = Ok y) output_items gs ∧
    df = {| columns := [("prompt", column_cells ps);
                        ("reference", column_cells rs);
                        ("model_response", column_cells ms);
                        ("grading_results", column_cells gs)] |}.
Proof.
  unfold build_df. split.
  - destruct (mapM prompt_of _) as [ps|] eqn:Hps; simpl; [|done].
    destruct (mapM reference_of _) as [rs|] eqn:Hrs; simpl; [|done].
    destruct (mapM model_response_of _) as [ms|] eqn:Hms; simpl; [|done].
    destruct (mapM grading_results_of _) as [gs|] eqn:Hgs; simpl; [|done].
    apply mapM_Ok_Forall2 in Hps, Hrs, Hms, Hgs.
    destruct (_ && _); [|done]. intros [= <-]. by exists ps, rs, ms, gs.
  - intros (ps & rs & ms & gs & Hps & Hrs & Hms & Hgs & ->).
    pose proof (Forall2_length _ _ _ Hps) as Lps.
    pose proof (Forall2_length _ _ _ Hrs) as Lrs.
    pose proof (Forall2_length _ _ _ Hms) as Lms.
    pose proof (Forall2_length _ _ _ Hgs) as Lgs.
    apply mapM_Ok_Forall2 in Hps, Hrs, Hms, Hgs.
    rewrite Hps, Hrs, Hms, Hgs. simpl.
    rewrite <- Lrs, <- Lms, <- Lgs, <- Lps, Nat.eqb_refl. done.
Qed.

(** C8.  A table that is built has the four columns, one row per output
    item and in the order of the list, each cell made from the value read
    from its item ([prompt] and [reference] from [datasource_item],
    [model_response] from [sample.output[0].content], [grading_results]
    from [results[0]["sample"]["output"][0]["content"]]) and holding that
    very string when its column is made of strings; it is built whenever
    every item yields these four values; and an item with an empty
    [sample.output] or empty [results] makes the construction raise. *)
Theorem results_table_rows (output_items : list OutputItem.t) :
  (∀ df, build_df output_items = Ok df →
     dict_keys (columns df) =
       ["prompt"; "reference"; "model_response"; "grading_results"] ∧
     nrows df = length output_items ∧
     ∀ i item, output_items !! i = Some item →
       ∃ prompt reference model_response grading_results,
         (∃ c, cell df "prompt" i = Some c ∧ given c = prompt ∧
               (all_strings prompt_of output_items → ∃ s, c = Kept s)) ∧
         dict_get (OutputItem.datasource_item item) "prompt" = Some prompt ∧
         (∃ c, cell df "reference" i = Some c ∧ given c = reference ∧
               (all_strings reference_of output_items → ∃ s, c = Kept s)) ∧
         dict_get (OutputItem.datasource_item item) "reference" = Some reference ∧
         (∃ c, cell df "model_response" i = Some c ∧ given c = model_response ∧
               (all_strings model_response_of output_items → ∃ s, c = Kept s)) ∧
         (∃ o, Sample.output (OutputItem.sample item) !! 0%nat = Some o ∧
               SampleOutput.content o = model_response) ∧
         (∃ c, cell df "grading_results" i = Some c ∧ given c = grading_results ∧
               (all_strings grading_results_of output_items → ∃ s, c = Kept s)) ∧
         (∃ r s o o0,
            OutputItem.results item !! 0%nat = Some r ∧
            getitem_key r "sample" = Ok s ∧
            getitem_key s "output" = Ok o ∧
            getitem_index o 0 = Ok o0 ∧
            getitem_key o0 "content" = Ok grading_results))
  ∧ ((∀ item, item ∈ output_items →
        ∃ p r m g, prompt_of item = Ok p ∧ reference_of item = Ok r ∧
                   model_response_of item = Ok m ∧
                   grading_results_of item = Ok g) →
     ∃ df, build_df output_items = Ok df)
  ∧ ((∃ item, item ∈ output_items ∧
        (Sample.output (OutputItem.sample item) = [] ∨
         OutputItem.results item = [])) →
     raises (build_df output_items)).
Proof.
  split; [|split].
  - intros df (ps & rs & ms & gs & Hps & Hrs & Hms & Hgs & ->)%build_df_Ok.
    split; [done|]. split.
    { change (length (column_cells ps) = length output_items).
      rewrite length_column_cells. symmetry.
      apply (Forall2_length _ _ _ Hps). }
    intros i item Hi.
    destruct (Forall2_lookup_l _ _ _ _ _ Hps Hi) as (p & Hp & Hpi).
    destruct (Forall2_lookup_l _ _ _ _ _ Hrs Hi) as (r & Hr & Hri).
    destruct (Forall2_lookup_l _ _ _ _ _ Hms Hi) as (m & Hm & Hmi).
    destruct (Forall2_lookup_l _ _ _ _ _ Hgs Hi) as (g & Hg & Hgi).
    destruct (column_cells_lookup _ _ _ Hp) as (cp & Hcp & Hgp & Hkp).
    destruct (column_cells_lookup _ _ _ Hr) as (cr & Hcr & Hgr & Hkr).
    destruct (column_cells_lookup _ _ _ Hm) as (cm & Hcm & Hgm & Hkm).
    destruct (column_cells_lookup _ _ _ Hg) as (cg & Hcg & Hgg & Hkg).
    exists p, r, m, g. unfold cell. simpl.
    split; [exists cp; eauto using all_strings_column|].
    split.
    { unfold prompt_of, dict_getitem in Hpi.
      destruct (dict_get _ "prompt"); by simplify_eq. }
    split; [exists cr; eauto using all_strings_column|].
    split.
    { unfold reference_of, dict_getitem in Hri.
      destruct (dict_get _ "reference"); by simplify_eq. }
    split; [exists cm; eauto using all_strings_column|].
    split.
    { unfold model_response_of in Hmi.
      destruct (list_getitem _ 0) as [o|] eqn:Ho; simplify_eq/=.
      exists o. by apply list_getitem_0 in Ho. }
    split; [exists cg; eauto using all_strings_column|].
    unfold grading_results_of in Hgi.
    destruct (list_getitem _ 0) as [r0|] eqn:Hr0; simplify_eq/=.
    apply list_getitem_0 in Hr0.
    destruct (getitem_key r0 "sample") as [s0|] eqn:Hs0; simplify_eq/=.
    destruct (getitem_key s0 "output") as [o|] eqn:Ho; simplify_eq/=.
    destruct (getitem_index o 0) as [o0|] eqn:Ho0; simplify_eq/=.
    by exists r0, s0, o, o0.
  - intros Hall.
    assert (∀ {B} (f : OutputItem.t → py B),
              (∀ item, item ∈ output_items → ∃ y, f item = Ok y) →
              ∃ k, Forall2 (λ item y, f item = Ok y) output_items k) as Hcol.
    { intros B f. clear Hall.
      induction output_items as [|item l IH]; intros Hf; [by exists []|].
      destruct (Hf item) as [y Hy]; [by left|].
      destruct IH as [k Hk]; [intros; apply Hf; by right|].
      exists (y :: k). by constructor. }
    destruct (Hcol _ prompt_of) as [ps Hps].
    { intros item Hitem. destruct (Hall item Hitem) as (p&r&m&g&?&?&?&?). eauto. }
    destruct (Hcol _ reference_of) as [rs Hrs].
    { intros item Hitem. destruct (Hall item Hitem) as (p&r&m&g&?&?&?&?). eauto. }
    destruct (Hcol _ model_response_of) as [ms Hms].
    { intros item Hitem. destruct (Hall item Hitem) as (p&r&m&g&?&?&?&?). eauto. }
    destruct (Hcol _ grading_results_of) as [gs Hgs].
    { intros item Hitem. destruct (Hall item Hitem) as (p&r&m&g&?&?&?&?). eauto. }
    eexists. apply build_df_Ok. by exists ps, rs, ms, gs.
  - intros (item & Hitem & Hempty).
    destruct (build_df output_items) as [df|e] eqn:Hdf; [|by eexists].
    apply build_df_Ok in Hdf as (ps & rs & ms & gs & _ & _ & Hms & Hgs & _).
    apply list_elem_of_lookup in Hitem as [i Hi].
    destruct (Forall2_lookup_l _ _ _ _ _ Hms Hi) as (m & _ & Hm).
    destruct (Forall2_lookup_l _ _ _ _ _ Hgs Hi) as (g & _ & Hg).
    unfold model_response_of in Hm. unfold grading_results_of in Hg.
    destruct Hempty as [Hempty|Hempty]; rewrite Hempty in *;
      by rewrite list_getitem_0_nil in *.
Qed.

Lemma results_table_rows_witness :
  (∃ df, build_df [Samples.graded_item] = Ok df ∧ nrows df = 1%nat
         ∧ cell df "model_response" 0 = Some (Kept "A pizza, I think."))
  ∧ raises (build_df [Samples.graded_item; Samples.item_without_sample_output])
  ∧ raises (build_df [Samples.item_without_results]).
Proof.
  split; [|split].
  - destruct (results_table_rows [Samples.graded_item]) as (Hrows & Hbuilt & _).
    destruct Hbuilt as [df Hdf].
    { intros item ->%list_elem_of_singleton. by eexists _, _, _, _. }
    destruct (Hrows df Hdf) as (_ & Hn & Hcells).
    destruct (Hcells 0%nat Samples.graded_item eq_refl)
      as (p & r & m & g & _ & _ & _ & _ & (c & Hc & Hgiven & Hkept)
          & (o & Ho & <-) & _).
    injection Ho as <-.
    destruct Hkept as [s ->].
    { intros item ->%list_elem_of_singleton. by eexists. }
    simpl in Hgiven. injection Hgiven as ->. by exists df.
  - apply (results_table_rows [Samples.graded_item; Samples.item_without_sample_output]).
    exists Samples.item_without_sample_output. split; [|by left].
    apply list_elem_of_In. simpl. auto.
  - apply (results_table_rows [Samples.item_without_results]).
    exists Samples.item_without_results. split; [|by right].
    apply list_elem_of_In. simpl. auto.
Defined.

(** ** The streaming handler *)

Import Streaming.

Lemma for_logs (outputs : list Output.t) (out : stdout) :
  for_ outputs (λ output,
    if String.eqb (Output.type output) "logs"
    then print (nl +:+ str (Output.logs output)) nl
    else mret ()) out =
  (Val (),
   out ++ map (λ output, (nl +:+ str (Output.logs output)) +:+ nl)
            (List.filter (λ output, String.eqb (Output.type output) "logs")
               outputs)).
Proof.
  revert out. induction outputs as [|output outputs IH]; intros out; simpl.
  - by rewrite app_nil_r.
  - unfold mbind, M_bind.
    destruct (String.eqb (Output.type output) "logs"); simpl.
    + rewrite IH. by rewrite <- app_assoc.
    + apply IH.
Qed.

(** C9.  [on_tool_call_delta] writes nothing for a delta whose type is
    not 'code_interpreter'.  For a 'code_interpreter' delta it prints
    [delta.code_interpreter.input] exactly when that is truthy, then, when
    [outputs] is truthy, the "output >" line and the logs of exactly those
    outputs whose type is "logs", in order, skipping the others. *)
Theorem on_tool_call_delta_prints (delta : ToolCallDelta.t) (out : stdout) :
  (ToolCallDelta.type delta ≠ "code_interpreter" →
   on_tool_call_delta delta out = (Val (), out))
  ∧ (ToolCallDelta.type delta = "code_interpreter" →
     ∀ ci, ToolCallDelta.code_interpreter delta = Some ci →
       on_tool_call_delta delta out =
       (Val (),
        out
        ++ (if truthy_str (CodeInterpreter.input ci)
            then [str (CodeInterpreter.input ci)] else [])
        ++ (if truthy_list (CodeInterpreter.outputs ci)
            then ((nl +:+ nl +:+ "output >") +:+ nl) ::
                 map (λ output, (nl +:+ str (Output.logs output)) +:+ nl)
                   (List.filter
                      (λ output, String.eqb (Output.type output) "logs")
                      (default [] (CodeInterpreter.outputs ci)))
            else []))).
Proof.
  unfold on_tool_call_delta. split.
  - intros Htype. apply String.eqb_neq in Htype. by rewrite Htype.
  - intros Htype ci Hci. apply String.eqb_eq in Htype. rewrite Htype.
    unfold mbind, M_bind, lift, code_interpreter_attr. rewrite Hci.
    assert (∀ s : string, s +:+ "" = s) as Hend.
    { intros s. induction s as [|c s IH]; [done|].
      change (String c (s +:+ "") = String c s). by rewrite IH. }
    destruct (truthy_str (CodeInterpreter.input ci)); simpl;
      destruct (truthy_list (CodeInterpreter.outputs ci)); simpl;
      rewrite ?for_logs, ?Hend, ?app_nil_r, <- ?app_assoc; reflexivity.
Qed.

Lemma on_tool_call_delta_prints_witness :
  on_tool_call_delta Samples.function_delta [] = (Val (), [])
  ∧ on_tool_call_delta Samples.code_delta [] =
    (Val (), ["print(6 * 7)";
              (nl +:+ nl +:+ "output >") +:+ nl;
              (nl +:+ "42") +:+ nl]).
Proof.
  split.
  - apply (on_tool_call_delta_prints Samples.function_delta []). discriminate.
  - destruct (on_tool_call_delta_prints Samples.code_delta []) as [_ Hcode].
    exact (Hcode eq_refl _ eq_refl).
Defined.

(** * Further properties *)

(** ** The dataset cell: when it fails and what it reads *)

Lemma append_example_result (acc : list pyval) (example : Row) :
  append_example acc example =
  match three_columns example with
  | (Some media_url, Some reference, Some prompt) =>
      Ok (acc ++ [PDict [("item", PDict [("media_url", media_url);
                                        ("reference", reference);
                                        ("prompt", prompt)])]])
  | (None, _, _) => Raise (KeyError (PStr "media_url"))
  | (Some _, None, _) => Raise (KeyError (PStr "reference"))
  | (Some _, Some _, None) => Raise (KeyError (PStr "prompt"))
  end.
Proof.
  unfold append_example, three_columns, dict_getitem.
  destruct (dict_get example "media_url"); [|done].
  destruct (dict_get example "reference"); [|done].
  by destruct (dict_get example "prompt").
Qed.

Lemma build_evals_data_source_unfold (dataset : DatasetDict) :
  build_evals_data_source dataset =
  match dict_get dataset "test" with
  | None => Raise (KeyError (PStr "test"))
  | Some [] => Ok []
  | Some (e0 :: e1 :: e2 :: _) => for_each append_example [e0; e1; e2] []
  | Some _ => Raise IndexError
  end.
Proof.
  unfold build_evals_data_source, dict_getitem.
  destruct (dict_get dataset "test") as [test|]; [|done].
  by destruct test as [|e0 [|e1 [|e2 rest]]].
Qed.

(** X1.  The dataset cell succeeds exactly when there is a "test" split
    that is either empty, in which case nothing is selected and the list
    stays empty, or has at least 3 examples whose first three all have
    the columns "media_url", "reference" and "prompt". *)
Theorem evals_data_source_succeeds_iff (dataset : DatasetDict) :
  ((∃ evals_data_source, build_evals_data_source dataset = Ok evals_data_source)
   ↔ ∃ test,
       dict_get dataset "test" = Some test ∧
       (test = [] ∨
        (3 ≤ length test)%nat ∧
        ∀ i example, (i < 3)%nat → test !! i = Some example →
          is_Some (dict_get example "media_url") ∧
          is_Some (dict_get example "reference") ∧
          is_Some (dict_get example "prompt")))
  ∧ (dict_get dataset "test" = Some [] → build_evals_data_source dataset = Ok []).
Proof.
  rewrite build_evals_data_source_unfold. split; [|by intros ->]. split.
  - intros [src Hsrc].
    destruct (dict_get dataset "test") as [test|]; [|done].
    destruct test as [|e0 [|e1 [|e2 rest]]]; try done.
    { exists []. split; [done|by left]. }
    exists (e0 :: e1 :: e2 :: rest). split; [done|]. right.
    split; [simpl; lia|].
    simpl in Hsrc. rewrite !append_example_result in Hsrc.
    unfold three_columns in Hsrc.
    destruct (dict_get e0 "media_url") eqn:?, (dict_get e0 "reference") eqn:?,
      (dict_get e0 "prompt") eqn:?; try done. simpl in Hsrc.
    rewrite !append_example_result in Hsrc. unfold three_columns in Hsrc.
    destruct (dict_get e1 "media_url") eqn:?, (dict_get e1 "reference") eqn:?,
      (dict_get e1 "prompt") eqn:?; try done. simpl in Hsrc.
    rewrite !append_example_result in Hsrc. unfold three_columns in Hsrc.
    destruct (dict_get e2 "media_url") eqn:?, (dict_get e2 "reference") eqn:?,
      (dict_get e2 "prompt") eqn:?; try done.
    intros [|[|[|i]]] example Hi Hex; [| | |lia]; simplify_eq/=;
      repeat split; by eexists.
  - intros (test & -> & [->|[Hlen Hcols]]); [by eexists|].
    destruct test as [|e0 [|e1 [|e2 rest]]]; simpl in Hlen; try lia.
    destruct (Hcols 0%nat e0) as ([m0 Hm0] & [r0 Hr0] & [p0 Hp0]); [lia|done|].
    destruct (Hcols 1%nat e1) as ([m1 Hm1] & [r1 Hr1] & [p1 Hp1]); [lia|done|].
    destruct (Hcols 2%nat e2) as ([m2 Hm2] & [r2 Hr2] & [p2 Hp2]); [lia|done|].
    simpl. rewrite append_example_result. unfold three_columns.
    rewrite Hm0, Hr0, Hp0. simpl.
    rewrite append_example_result. unfold three_columns.
    rewrite Hm1, Hr1, Hp1. simpl.
    rewrite append_example_result. unfold three_columns.
    rewrite Hm2, Hr2, Hp2. simpl. eauto.
Qed.

Lemma evals_data_source_succeeds_iff_witness :
  build_evals_data_source Samples.dataset_empty_test = Ok []
  ∧ ∃ evals_data_source,
      build_evals_data_source Samples.vibe_eval = Ok evals_data_source.
Proof.
  split.
  - by apply (evals_data_source_succeeds_iff Samples.dataset_empty_test).
  - apply (evals_data_source_succeeds_iff Samples.vibe_eval).
    eexists. split; [reflexivity|]. right. split; [simpl; lia|].
    intros [|[|[|i]]] example Hi Hex; [| | |lia];
      simpl in Hex; injection Hex as <-; repeat split; eexists; reflexivity.
Defined.

(** X2.  With one or two examples in the "test" split the cell raises
    [IndexError], whatever the examples contain: the selection of the
    first three comes before any column is read, and only an empty split
    escapes its bounds check. *)
Theorem evals_data_source_too_few (dataset : DatasetDict) (test : Dataset) :
  dict_get dataset "test" = Some test →
  (0 < length test < 3)%nat →
  build_evals_data_source dataset = Raise IndexError.
Proof.
  intros Htest Hlen. rewrite build_evals_data_source_unfold, Htest.
  destruct test as [|e0 [|e1 [|e2 rest]]]; simpl in Hlen; try done; lia.
Qed.

Lemma evals_data_source_too_few_witness :
  build_evals_data_source Samples.dataset_short = Raise IndexError.
Proof.
  apply (evals_data_source_too_few Samples.dataset_short
           [Samples.example_a; Samples.example_b]); [reflexivity|simpl; lia].
Defined.

(** X3.  The cell reads nothing but the three columns of the first three
    examples of "test": two datasets that agree there give the same
    result, the same list or the same exception, whatever else they hold
    (other splits, other columns, the order of the columns, further
    examples). *)
Theorem evals_data_source_reads_only (dataset1 dataset2 : DatasetDict)
    (test1 test2 : Dataset) :
  dict_get dataset1 "test" = Some test1 →
  dict_get dataset2 "test" = Some test2 →
  three_columns <$> take 3 test1 = three_columns <$> take 3 test2 →
  build_evals_data_source dataset1 = build_evals_data_source dataset2.
Proof.
  intros H1 H2 Hcols. rewrite !build_evals_data_source_unfold, H1, H2.
  destruct test1 as [|a0 [|a1 [|a2 r1]]], test2 as [|b0 [|b1 [|b2 r2]]];
    simplify_eq/=; try done.
  assert (∀ a b acc,
            dict_get a "media_url" = dict_get b "media_url" →
            dict_get a "reference" = dict_get b "reference" →
            dict_get a "prompt" = dict_get b "prompt" →
            append_example acc a = append_example acc b) as Hsame.
  { intros a b acc Hm Hr Hp. rewrite !append_example_result.
    unfold three_columns. by rewrite Hm, Hr, Hp. }
  rewrite (Hsame a0 b0) by done.
  destruct (append_example [] b0) as [acc0|]; simpl; [|done].
  rewrite (Hsame a1 b1) by done.
  destruct (append_example acc0 b1) as [acc1|]; simpl; [|done].
  by rewrite (Hsame a2 b2).
Qed.

Lemma evals_data_source_reads_only_witness :
  build_evals_data_source Samples.vibe_eval_longer
  = build_evals_data_source Samples.vibe_eval_reordered_columns.
Proof.
  eapply evals_data_source_reads_only; reflexivity.
Defined.

(** X4.  The only exceptions the cell can raise are [KeyError] for
    "test" or for one of the three columns, and [IndexError]. *)
Theorem evals_data_source_errors (dataset : DatasetDict) (e : exn) :
  build_evals_data_source dataset = Raise e →
  e = IndexError ∨
  ∃ key, e = KeyError (PStr key) ∧
         key ∈ ["test"; "media_url"; "reference"; "prompt"].
Proof.
  rewrite build_evals_data_source_unfold.
  destruct (dict_get dataset "test") as [test|].
  2:{ intros [= <-]. right. exists "test". split; [done|(apply list_elem_of_In; simpl; tauto)]. }
  destruct test as [|e0 [|e1 [|e2 rest]]];
    try done; try (intros [= <-]; by left).
  simpl. intros Hraise. right.
  rewrite append_example_result in Hraise.
  destruct (three_columns e0) as [[[?|] [?|]] [?|]]; simpl in Hraise;
    try (injection Hraise as <-; eexists; split; [done|(apply list_elem_of_In; simpl; tauto)]).
  rewrite append_example_result in Hraise.
  destruct (three_columns e1) as [[[?|] [?|]] [?|]]; simpl in Hraise;
    try (injection Hraise as <-; eexists; split; [done|(apply list_elem_of_In; simpl; tauto)]).
  rewrite append_example_result in Hraise.
  destruct (three_columns e2) as [[[?|] [?|]] [?|]]; simpl in Hraise;
    try (injection Hraise as <-; eexists; split; [done|(apply list_elem_of_In; simpl; tauto)]).
  done.
Qed.

Lemma evals_data_source_errors_witness :
  KeyError (PStr "prompt") = IndexError ∨
  ∃ key, KeyError (PStr "prompt") = KeyError (PStr key) ∧
         key ∈ ["test"; "media_url"; "reference"; "prompt"].
Proof.
  apply (evals_data_source_errors Samples.dataset_missing_column). reflexivity.
Defined.

(** ** The results table: which exceptions, and which first *)

Lemma mapM_Raise_elem {A B} (f : A → py B) (l : list A) (e : exn) :
  mapM f l = Raise e → ∃ x, x ∈ l ∧ f x = Raise e.
Proof.
  induction l as [|x l IH]; simpl; [done|].
  destruct (f x) as [y|e'] eqn:Hx; simpl.
  - destruct (mapM f l) as [k|e'] eqn:Hl; simpl; [done|].
    intros [= <-]. destruct IH as (x' & Hx' & Hfx'); [done|].
    exists x'. split; [by right|done].
  - intros [= <-]. exists x. split; [by left|done].
Qed.

Lemma mapM_raises_same {A B} (f : A → py B) (l : list A) (x : A) (e : exn) :
  x ∈ l → f x = Raise e → (∀ y e', f y = Raise e' → e' = e) →
  mapM f l = Raise e.
Proof.
  intros Hx Hfx Hsame.
  destruct (mapM_raises f l x Hx) as [e' He']; [by exists e|].
  destruct (mapM_Raise_elem f l e' He') as (y & _ & Hy).
  by rewrite He', (Hsame y e' Hy).
Qed.

Lemma list_getitem_error {A} (l : list A) (i : Z) (e : exn) :
  list_getitem l i = Raise e → e = IndexError.
Proof.
  unfold list_getitem. destruct (_ <? 0); [congruence|].
  destruct (l !! _); congruence.
Qed.

Lemma getitem_key_error (v : pyval) (k : string) (e : exn) :
  getitem_key v k = Raise e → lookup_error e.
Proof.
  unfold lookup_error.
  destruct v; simpl; try (intros [= <-]; tauto).
  unfold dict_getitem. destruct (dict_get d k); [done|].
  intros [= <-]. eauto.
Qed.

Lemma getitem_index_error (v : pyval) (i : Z) (e : exn) :
  getitem_index v i = Raise e → lookup_error e.
Proof.
  unfold lookup_error.
  destruct v; simpl; try (intros [= <-]; eauto; tauto).
  - destruct (list_getitem _ i) eqn:Hc; simpl; [done|].
    intros [= <-]. apply list_getitem_error in Hc. tauto.
  - intros He. apply list_getitem_error in He. tauto.
Qed.

Lemma accessors_error (item : OutputItem.t) (e : exn) :
  prompt_of item = Raise e ∨ reference_of item = Raise e ∨
  model_response_of item = Raise e ∨ grading_results_of item = Raise e →
  lookup_error e.
Proof.
  unfold prompt_of, reference_of, model_response_of, grading_results_of.
  intros [He|[He|[He|He]]].
  - unfold dict_getitem in He. destruct (dict_get _ _); [done|].
    injection He as <-. unfold lookup_error. eauto.
  - unfold dict_getitem in He. destruct (dict_get _ _); [done|].
    injection He as <-. unfold lookup_error. eauto.
  - destruct (list_getitem _ 0) eqn:Ho; simpl in He; [done|].
    injection He as <-. apply list_getitem_error in Ho. unfold lookup_error. tauto.
  - destruct (list_getitem _ 0) as [r|] eqn:Hr; simpl in He.
    2:{ injection He as <-. apply list_getitem_error in Hr.
        unfold lookup_error. tauto. }
    destruct (getitem_key r "sample") as [s|] eqn:Hs; simpl in He.
    2:{ injection He as <-. by eapply getitem_key_error. }
    destruct (getitem_key s "output") as [o|] eqn:Ho; simpl in He.
    2:{ injection He as <-. by eapply getitem_key_error. }
    destruct (getitem_index o 0) as [o0|] eqn:Ho0; simpl in He.
    2:{ injection He as <-. by eapply getitem_index_error. }
    by eapply getitem_key_error.
Qed.

(** X5.  The table construction fails only through a failed subscript
    ([KeyError], [IndexError] or [TypeError]) of one of the output items:
    the four columns always have one length, so pandas' [ValueError] for
    columns of different lengths cannot occur. *)
Theorem build_df_errors (output_items : list OutputItem.t) (e : exn) :
  build_df output_items = Raise e →
  lookup_error e ∧
  ∃ item, item ∈ output_items ∧
    (prompt_of item = Raise e ∨ reference_of item = Raise e ∨
     model_response_of item = Raise e ∨ grading_results_of item = Raise e).
Proof.
  intros Hraise.
  assert (∃ item, item ∈ output_items ∧
            (prompt_of item = Raise e ∨ reference_of item = Raise e ∨
             model_response_of item = Raise e ∨
             grading_results_of item = Raise e)) as (item & Hitem & Hacc).
  { unfold build_df in Hraise.
    destruct (mapM prompt_of _) as [ps|] eqn:Hps; simpl in Hraise.
    2:{ injection Hraise as ->.
        apply mapM_Raise_elem in Hps as (item & ? & ?). eauto. }
    destruct (mapM reference_of _) as [rs|] eqn:Hrs; simpl in Hraise.
    2:{ injection Hraise as ->.
        apply mapM_Raise_elem in Hrs as (item & ? & ?). eauto 6. }
    destruct (mapM model_response_of _) as [ms|] eqn:Hms; simpl in Hraise.
    2:{ injection Hraise as ->.
        apply mapM_Raise_elem in Hms as (item & ? & ?). eauto 6. }
    destruct (mapM grading_results_of _) as [gs|] eqn:Hgs; simpl in Hraise.
    2:{ injection Hraise as ->.
        apply mapM_Raise_elem in Hgs as (item & ? & ?). eauto 7. }
    apply mapM_Ok_Forall2 in Hps, Hrs, Hms, Hgs.
    assert (∃ df, build_df output_items = Ok df) as [df Hdf].
    { eexists. apply build_df_Ok. by exists ps, rs, ms, gs. }
    apply build_df_Ok in Hdf as (ps' & rs' & ms' & gs' & Hps' & Hrs' & Hms' & Hgs' & _).
    pose proof (Forall2_length _ _ _ Hps) as Lps.
    pose proof (Forall2_length _ _ _ Hrs) as Lrs.
    pose proof (Forall2_length _ _ _ Hms) as Lms.
    pose proof (Forall2_length _ _ _ Hgs) as Lgs.
    rewrite <- Lrs, <- Lms, <- Lgs, <- Lps, Nat.eqb_refl in Hraise. done. }
  split; [by eapply accessors_error|by exists item].
Qed.

Lemma build_df_errors_witness :
  lookup_error IndexError ∧
  ∃ item, item ∈ [Samples.graded_item; Samples.item_without_results] ∧
    (prompt_of item = Raise IndexError ∨ reference_of item = Raise IndexError ∨
     model_response_of item = Raise IndexError ∨
     grading_results_of item = Raise IndexError).
Proof.
  apply (build_df_errors [Samples.graded_item; Samples.item_without_results]
           IndexError).
  reflexivity.
Defined.

(** X6.  The "prompt" column is built first: when some output item has
    no "prompt" in its [datasource_item], the construction raises
    [KeyError] for "prompt", whatever else is missing in that or any
    other item. *)
Theorem build_df_prompt_first (output_items : list OutputItem.t)
    (item : OutputItem.t) :
  item ∈ output_items →
  dict_get (OutputItem.datasource_item item) "prompt" = None →
  build_df output_items = Raise (KeyError (PStr "prompt")).
Proof.
  intros Hitem Hprompt. unfold build_df.
  rewrite (mapM_raises_same prompt_of output_items item (KeyError (PStr "prompt")));
    [done|done| |].
  - unfold prompt_of, dict_getitem. by rewrite Hprompt.
  - intros y e'. unfold prompt_of, dict_getitem.
    destruct (dict_get (OutputItem.datasource_item y) "prompt"); [done|].
    by intros [= <-].
Qed.

Lemma build_df_prompt_first_witness :
  build_df [Samples.item_without_sample_output; Samples.item_without_prompt;
            Samples.graded_item]
  = Raise (KeyError (PStr "prompt")).
Proof.
  apply (build_df_prompt_first _ Samples.item_without_prompt); [|reflexivity].
  apply list_elem_of_In. simpl. tauto.
Defined.

(** ** The loop and the notebook as a whole *)

Section Running.
Context (svc : Service) (eval_run : Run.t) (eval_object : EvalObject.t).

Local Abbreviation run_at n :=
  (retrieve svc n (Run.id eval_run) (EvalObject.id eval_object)).

Lemma slept_app (l1 l2 : list event) : slept (l1 ++ l2) = slept l1 + slept l2.
Proof.
  induction l1 as [|e l1 IH]; simpl; [done|].
  destruct e; rewrite ?IH; lia.
Qed.

Lemma slept_waiting (from n : nat) :
  slept (waiting svc eval_run eval_object from n) = 5 * Z.of_nat n.
Proof.
  revert from. induction n as [|n IH]; intros from; [done|].
  rewrite waiting_S. simpl. rewrite IH. lia.
Qed.

Lemma slept_shown (run : Run.t) : slept (shown svc run eval_object) = 0.
Proof. unfold shown. by destruct (build_df _). Qed.

(** X8.  The loop asks for 5 seconds of sleep per poll that is not
    terminal and for none otherwise: it has slept [5 * k] seconds when it
    leaves on poll number [k], and [5 * n] seconds after [n] iterations
    that saw no terminal status. *)
Theorem poll_total_sleep (s : session) :
  (∀ k fuel,
     (∀ j, (j < k)%nat → ¬ terminal (Run.status (run_at (polls s + j)))) →
     terminal (Run.status (run_at (polls s + k))) →
     (k < fuel)%nat →
     slept (log (poll svc fuel eval_run eval_object s).2)
     = slept (log s) + 5 * Z.of_nat k)
  ∧ (∀ n,
       (∀ j, (j < n)%nat → ¬ terminal (Run.status (run_at (polls s + j)))) →
       slept (log (poll svc n eval_run eval_object s).2)
       = slept (log s) + 5 * Z.of_nat n).
Proof.
  split.
  - intros k fuel Hwait Hk Hfuel.
    replace fuel with (k + S (fuel - S k))%nat by lia.
    rewrite poll_leaves.
    + cbn [snd log]. rewrite !slept_app, slept_waiting.
      change (slept (?e :: ?l)) with (slept l). rewrite slept_shown. lia.
    + intros j Hj. by apply is_finished_not_terminal, Hwait.
    + by apply is_finished_terminal.
  - intros n Hwait.
    rewrite <- (Nat.add_0_r n) at 1. rewrite poll_waits.
    + simpl. rewrite slept_app, slept_waiting. lia.
    + intros j Hj. by apply is_finished_not_terminal, Hwait.
Qed.

Lemma poll_creates_nothing (fuel : nat) (s : session) :
  List.filter is_create (log (poll svc fuel eval_run eval_object s).2)
  = List.filter is_create (log s).
Proof.
  revert s. induction fuel as [|fuel IH]; intros s; [done|].
  destruct (is_finished (run_at (polls s))) eqn:Hnow.
  - rewrite poll_finished, show_results_run by done. simpl.
    rewrite !List.filter_app. simpl. unfold shown.
    destruct (build_df _); simpl; by rewrite !app_nil_r.
  - rewrite poll_unfinished, IH by done. simpl.
    rewrite List.filter_app. simpl. by rewrite app_nil_r.
Qed.

End Running.

Lemma poll_total_sleep_witness :
  slept (log (poll Samples.completing 4 Samples.evalrun_1 Samples.eval_1 start).2) = 10
  ∧ slept (log (poll Samples.stuck 6 Samples.evalrun_1 Samples.eval_1 start).2) = 30.
Proof.
  split.
  - apply (poll_total_sleep Samples.completing Samples.evalrun_1 Samples.eval_1
             start) with (k := 2%nat); [|by left|lia].
    intros [|[|j]] Hj; [| |lia]; intros [H|H]; discriminate H.
  - apply (poll_total_sleep Samples.stuck Samples.evalrun_1 Samples.eval_1
             start) with (n := 6%nat).
    intros [|j] _ [H|H]; discriminate H.
Defined.

Section Outcome.
Context (svc : Service) (json_dumps : OutputItem.t → string).

(** X9.  When the dataset cell raises, the notebook stops there: the
    exception is the notebook's, and neither the eval nor the run has
    been created, nor anything else called. *)
Theorem notebook_stops_before_any_call (dataset : DatasetDict) (e : exn)
    (fuel : nat) (s : session) :
  build_evals_data_source dataset = Raise e →
  notebook svc json_dumps fuel dataset s = (Exc e, s).
Proof.
  intros Hbuild. unfold notebook, mbind, M_bind, lift. by rewrite Hbuild.
Qed.

(** X10.  Whatever the service answers and however long the loop runs,
    the notebook creates one eval and one run and never a second: the
    creating calls in its log are exactly the first two. *)
Theorem notebook_creates_once (dataset : DatasetDict)
    (evals_data_source : list pyval) (fuel : nat) :
  build_evals_data_source dataset = Ok evals_data_source →
  let eval_object :=
    evals_create svc "Image Grading" data_source_config (PList [grader_config]) in
  let eval_run :=
    runs_create svc "Image Input Eval Run" (EvalObject.id eval_object)
      (run_data_source evals_data_source) in
  List.filter is_create (log (notebook svc json_dumps fuel dataset start).2) =
  [EvalsCreate "Image Grading" data_source_config (PList [grader_config])
     eval_object;
   RunsCreate "Image Input Eval Run" (EvalObject.id eval_object)
     (run_data_source evals_data_source) eval_run].
Proof.
  intros Hbuild eval_object eval_run.
  rewrite (notebook_reaches_poll _ _ _ _ _ Hbuild).
  fold eval_object. fold eval_run.
  match goal with |- context [poll svc fuel eval_run eval_object ?s0] =>
    pose proof (poll_creates_nothing svc eval_run eval_object fuel s0) as Hpoll
  end.
  destruct (poll svc fuel eval_run eval_object _) as [[items|e|] s]; simpl in *;
    try done.
  destruct items as [|first_item rest]; simpl; [done|].
  rewrite List.filter_app. simpl. by rewrite app_nil_r.
Qed.

(** X11.  How the notebook ends once a terminal status is seen: with the
    exception of the table construction if that fails, with [IndexError]
    from [output_items[0]] if the run has no output items, and normally
    otherwise; in each case after exactly [k + 1] polls. *)
Theorem notebook_outcome (dataset : DatasetDict)
    (evals_data_source : list pyval) (fuel k : nat) :
  build_evals_data_source dataset = Ok evals_data_source →
  let eval_object :=
    evals_create svc "Image Grading" data_source_config (PList [grader_config]) in
  let eval_run :=
    runs_create svc "Image Input Eval Run" (EvalObject.id eval_object)
      (run_data_source evals_data_source) in
  let run_at n :=
    retrieve svc n (Run.id eval_run) (EvalObject.id eval_object) in
  (∀ j, (j < k)%nat → ¬ terminal (Run.status (run_at j))) →
  terminal (Run.status (run_at k)) →
  (k < fuel)%nat →
  let items :=
    output_items svc (Run.id (run_at k)) (EvalObject.id eval_object) in
  (notebook svc json_dumps fuel dataset start).1 =
    match build_df items, items with
    | Raise e, _ => Exc e
    | Ok _, [] => Exc IndexError
    | Ok _, _ :: _ => Val ()
    end
  ∧ polls (notebook svc json_dumps fuel dataset start).2 = S k.
Proof.
  intros Hbuild eval_object eval_run run_at Hwait Hterm Hfuel items.
  rewrite (notebook_reaches_poll _ _ _ _ _ Hbuild).
  fold eval_object. fold eval_run.
  match goal with |- context [poll svc fuel eval_run eval_object ?s0] =>
    pose proof (poll_leaves svc eval_run eval_object k (fuel - S k) s0) as Hpoll
  end.
  replace (k + S (fuel - S k))%nat with fuel in Hpoll by lia.
  rewrite Hpoll.
  - simpl. fold (run_at k). fold items.
    destruct (build_df items); [|done]. by destruct items.
  - intros j Hj. by apply is_finished_not_terminal, Hwait.
  - by apply is_finished_terminal.
Qed.

End Outcome.

Lemma notebook_stops_before_any_call_witness :
  notebook Samples.completing Samples.dumps 4 Samples.dataset_short start
  = (Exc IndexError, start).
Proof.
  by apply (notebook_stops_before_any_call Samples.completing Samples.dumps
              Samples.dataset_short IndexError 4 start).
Defined.

Lemma notebook_creates_once_witness :
  length (List.filter is_create
            (log (notebook Samples.stuck Samples.dumps 9 Samples.vibe_eval start).2))
  = 2%nat.
Proof.
  by rewrite (notebook_creates_once Samples.stuck Samples.dumps
                Samples.vibe_eval _ 9 eq_refl).
Defined.

Lemma notebook_outcome_witness :
  (notebook Samples.completing_empty Samples.dumps 5 Samples.vibe_eval start).1
    = Exc IndexError
  ∧ (notebook Samples.completing_malformed Samples.dumps 5 Samples.vibe_eval start).1
    = Exc IndexError
  ∧ (notebook Samples.completing Samples.dumps 5 Samples.vibe_eval start).1
    = Val ().
Proof.
  split; [|split].
  - apply (notebook_outcome Samples.completing_empty Samples.dumps
             Samples.vibe_eval _ 5 1 eq_refl); [|by left|lia].
    intros [|j] Hj; [|lia]. intros [H|H]; discriminate H.
  - apply (notebook_outcome Samples.completing_malformed Samples.dumps
             Samples.vibe_eval _ 5 1 eq_refl); [|by left|lia].
    intros [|j] Hj; [|lia]. intros [H|H]; discriminate H.
  - apply (notebook_outcome Samples.completing Samples.dumps
             Samples.vibe_eval _ 5 2 eq_refl); [|by left|lia].
    intros [|[|j]] Hj; [| |lia]; intros [H|H]; discriminate H.
Defined.

Lemma waiting_prints_nothing (svc : Service) (eval_run : Run.t)
    (eval_object : EvalObject.t) (from n : nat) :
  Forall (λ e, ∀ text, e ≠ Print text)
    (waiting svc eval_run eval_object from n).
Proof.
  revert from. induction n as [|n IH]; intros from; [constructor|].
  rewrite waiting_S. repeat (constructor; [done|]). apply IH.
Qed.

Section EmptyRun.
Context (svc : Service) (json_dumps : OutputItem.t → string).

(** X12.  A run that finishes without output items: the notebook lists
    them, displays a table of four empty columns, and then fails with
    [IndexError] in the cell that reads [output_items[0]], printing
    nothing. *)
Theorem notebook_no_output_items (dataset : DatasetDict)
    (evals_data_source : list pyval) (fuel k : nat) :
  build_evals_data_source dataset = Ok evals_data_source →
  let eval_object :=
    evals_create svc "Image Grading" data_source_config (PList [grader_config]) in
  let eval_run :=
    runs_create svc "Image Input Eval Run" (EvalObject.id eval_object)
      (run_data_source evals_data_source) in
  let run_at n :=
    retrieve svc n (Run.id eval_run) (EvalObject.id eval_object) in
  (∀ j, (j < k)%nat → ¬ terminal (Run.status (run_at j))) →
  terminal (Run.status (run_at k)) →
  (k < fuel)%nat →
  output_items svc (Run.id (run_at k)) (EvalObject.id eval_object) = [] →
  ∃ before,
    notebook svc json_dumps fuel dataset start =
    (Exc IndexError,
     {| log := before ++
               [OutputItemsList (Run.id (run_at k)) (EvalObject.id eval_object) [];
                Display {| columns := [("prompt", []); ("reference", []);
                                       ("model_response", []);
                                       ("grading_results", [])] |}];
        polls := S k |})
    ∧ Forall (λ e, ∀ text, e ≠ Print text) before.
Proof.
  intros Hbuild eval_object eval_run run_at Hwait Hterm Hfuel Hnone.
  rewrite (notebook_reaches_poll _ _ _ _ _ Hbuild).
  fold eval_object. fold eval_run.
  match goal with |- context [poll svc fuel eval_run eval_object ?s0] =>
    pose proof (poll_leaves svc eval_run eval_object k (fuel - S k) s0) as Hpoll
  end.
  replace (k + S (fuel - S k))%nat with fuel in Hpoll by lia.
  rewrite Hpoll.
  - cbn [polls Nat.add log]. fold (run_at k). unfold shown. fold (run_at k).
    rewrite Hnone. simpl.
    eexists (_ :: _ :: waiting svc eval_run eval_object 0 k ++ [_]). split.
    + simpl. by rewrite <- !app_assoc.
    + repeat (constructor; [done|]).
      apply Forall_app. split; [|by repeat constructor].
      apply waiting_prints_nothing.
  - intros j Hj. by apply is_finished_not_terminal, Hwait.
  - by apply is_finished_terminal.
Qed.

End EmptyRun.

Lemma notebook_no_output_items_witness :
  ∃ s, notebook Samples.completing_empty Samples.dumps 3 Samples.vibe_eval start
       = (Exc IndexError, s)
       ∧ last (log s) =
         Some (Display {| columns := [("prompt", []); ("reference", []);
                                      ("model_response", []);
                                      ("grading_results", [])] |}).
Proof.
  destruct (notebook_no_output_items Samples.completing_empty Samples.dumps
              Samples.vibe_eval _ 3 1 eq_refl) as (before & Hrun & _).
  - intros [|j] Hj; [|lia]. intros [H|H]; discriminate H.
  - by left.
  - lia.
  - reflexivity.
  - eexists. split; [exact Hrun|]. simpl. by rewrite last_app.
Defined.

(** ** The two streaming samples side by side *)

Lemma append_empty_r (s : string) : s +:+ "" = s.
Proof.
  induction s as [|c s IH]; [done|].
  change (String c (s +:+ "") = String c s). by rewrite IH.
Qed.

Lemma append_assoc (s1 s2 s3 : string) : (s1 +:+ s2) +:+ s3 = s1 +:+ s2 +:+ s3.
Proof.
  induction s1 as [|c s1 IH]; [done|].
  change (String c ((s1 +:+ s2) +:+ s3) = String c (s1 +:+ s2 +:+ s3)).
  by rewrite IH.
Qed.

Lemma for_write_logs (outputs : list Output.t) (out : stdout) :
  for_ outputs (λ output,
    if String.eqb (Output.type output) "logs"
    then Node.write (nl +:+ Node.js_string (Output.logs output) +:+ nl)
    else mret ()) out =
  (Val (),
   out ++ map (λ output, nl +:+ Node.js_string (Output.logs output) +:+ nl)
            (List.filter (λ output, String.eqb (Output.type output) "logs")
               outputs)).
Proof.
  revert out. induction outputs as [|output outputs IH]; intros out; simpl.
  - by rewrite app_nil_r.
  - unfold mbind, M_bind.
    destruct (String.eqb (Output.type output) "logs"); simpl.
    + rewrite IH. by rewrite <- app_assoc.
    + apply IH.
Qed.

Lemma on_tool_call_delta_code (input : option string)
    (outputs : option (list Output.t)) (out : stdout) :
  on_tool_call_delta (code_interpreter_delta input outputs) out =
  (Val (),
   out
   ++ (if truthy_str input then [str input] else [])
   ++ (if truthy_list outputs
       then (nl +:+ nl +:+ "output >" +:+ nl) ::
            map (λ output, nl +:+ str (Output.logs output) +:+ nl)
              (List.filter (λ output, String.eqb (Output.type output) "logs")
                 (default [] outputs))
       else [])).
Proof.
  unfold on_tool_call_delta, code_interpreter_delta, mbind, M_bind, lift,
    code_interpreter_attr. simpl.
  destruct (truthy_str input); simpl; destruct (truthy_list outputs); simpl;
    rewrite ?for_logs, ?append_empty_r, ?app_nil_r, <- ?app_assoc, ?append_assoc;
    try reflexivity.
  all: do 3 f_equal; apply map_ext; intros o; by rewrite append_assoc.
Qed.

Lemma toolCallDelta_code (input : option string)
    (outputs : option (list Output.t)) (out : stdout) :
  Node.toolCallDelta (code_interpreter_delta input outputs) out =
  (Val (),
   out
   ++ (if Node.js_truthy_string input then [Node.js_string input] else [])
   ++ (if Node.js_truthy_array outputs
       then (nl +:+ "output >" +:+ nl) ::
            map (λ output, nl +:+ Node.js_string (Output.logs output) +:+ nl)
              (List.filter (λ output, String.eqb (Output.type output) "logs")
                 (default [] outputs))
       else [])).
Proof.
  unfold Node.toolCallDelta, code_interpreter_delta, mbind, M_bind, lift,
    Node.code_interpreter_prop. simpl.
  destruct (Node.js_truthy_string input); simpl;
    destruct (Node.js_truthy_array outputs); simpl;
    rewrite ?for_write_logs, ?app_nil_r, <- ?app_assoc; reflexivity.
Qed.

(** X13.  The Node.js listener for 'toolCallDelta' writes nothing for a
    delta of another type; for a 'code_interpreter' delta it writes the
    input exactly when that is a non-empty string, then, whenever
    [outputs] is present (empty or not), the "output >" line followed by
    the logs of exactly the outputs of type "logs", in order. *)
Theorem toolCallDelta_writes (delta : ToolCallDelta.t) (out : stdout) :
  (ToolCallDelta.type delta ≠ "code_interpreter" →
   Node.toolCallDelta delta out = (Val (), out))
  ∧ (ToolCallDelta.type delta = "code_interpreter" →
     ∀ ci, ToolCallDelta.code_interpreter delta = Some ci →
       Node.toolCallDelta delta out =
       (Val (),
        out
        ++ match CodeInterpreter.input ci with
           | Some (String c s) => [String c s]
           | _ => []
           end
        ++ match CodeInterpreter.outputs ci with
           | Some outputs =>
               (nl +:+ "output >" +:+ nl) ::
               map (λ output, nl +:+ Node.js_string (Output.logs output) +:+ nl)
                 (List.filter
                    (λ output, String.eqb (Output.type output) "logs") outputs)
           | None => []
           end)).
Proof.
  split.
  - intros Htype. unfold Node.toolCallDelta.
    apply String.eqb_neq in Htype. by rewrite Htype.
  - intros Htype ci Hci. destruct delta as [type code]. simpl in *. subst.
    destruct ci as [input outputs].
    pose proof (toolCallDelta_code input outputs out) as Hcode.
    unfold code_interpreter_delta in Hcode. rewrite Hcode. simpl.
    destruct input as [[|c s]|], outputs as [outputs|]; reflexivity.
Qed.

Lemma toolCallDelta_writes_witness :
  Node.toolCallDelta Samples.function_delta [] = (Val (), [])
  ∧ Node.toolCallDelta Samples.code_delta [] =
    (Val (), ["print(6 * 7)"; nl +:+ "output >" +:+ nl; nl +:+ "42" +:+ nl]).
Proof.
  split.
  - apply (toolCallDelta_writes Samples.function_delta []). discriminate.
  - destruct (toolCallDelta_writes Samples.code_delta []) as [_ Hcode].
    exact (Hcode eq_refl _ eq_refl).
Defined.

(** X14.  The Python handlers and the Node.js listeners write the same
    for a created text, for a text delta and for a created tool call, and
    for a tool-call delta of another type or whose [outputs] is absent
    and whose code-interpreter object is present. *)
Theorem python_node_agree (out : stdout) :
  on_text_created out = Node.textCreated out
  ∧ (∀ value, on_text_delta value out = Node.textDelta value out)
  ∧ (∀ type, on_tool_call_created type out = Node.toolCallCreated type out)
  ∧ (∀ delta,
       ToolCallDelta.type delta ≠ "code_interpreter" →
       on_tool_call_delta delta out = Node.toolCallDelta delta out)
  ∧ (∀ input,
       on_tool_call_delta (code_interpreter_delta input None) out
       = Node.toolCallDelta (code_interpreter_delta input None) out).
Proof.
  unfold on_text_created, on_text_delta, on_tool_call_created, print,
    Node.textCreated, Node.textDelta, Node.toolCallCreated, Node.write.
  split; [by rewrite append_empty_r|].
  split; [intros value; by rewrite append_empty_r|].
  split; [intros type; by rewrite !append_assoc|].
  split.
  - intros delta Htype. unfold on_tool_call_delta, Node.toolCallDelta.
    apply String.eqb_neq in Htype. by rewrite Htype.
  - intros input. rewrite on_tool_call_delta_code, toolCallDelta_code.
    by destruct input.
Qed.

Lemma python_node_agree_witness :
  on_tool_call_delta Samples.function_delta ["so far"]
  = Node.toolCallDelta Samples.function_delta ["so far"].
Proof.
  destruct (python_node_agree ["so far"]) as (_ & _ & _ & Hother & _).
  apply Hother. discriminate.
Defined.

Lemma log_lines_agree (outputs : list Output.t) :
  (∀ output, output ∈ outputs → Output.type output = "logs" →
     is_Some (Output.logs output)) →
  map (λ output, nl +:+ str (Output.logs output) +:+ nl)
    (List.filter (λ output, String.eqb (Output.type output) "logs") outputs)
  = map (λ output, nl +:+ Node.js_string (Output.logs output) +:+ nl)
      (List.filter (λ output, String.eqb (Output.type output) "logs") outputs).
Proof.
  intros Hlogs. induction outputs as [|o l IH]; [done|]. simpl.
  destruct (String.eqb (Output.type o) "logs") eqn:Ho; simpl.
  - destruct (Hlogs o) as [text Htext]; [by left|by apply String.eqb_eq|].
    rewrite Htext. simpl. f_equal. apply IH.
    intros o' Ho'. apply Hlogs. by right.
  - apply IH. intros o' Ho'. apply Hlogs. by right.
Qed.

(** X15.  Where the two samples differ.  With [outputs] present and the
    logs of every "logs" output present, both write the input and the
    same log lines, but Python's "output >" line starts with one more
    newline; and for an empty [outputs] list Node.js still writes its
    "output >" line while Python writes nothing after the input. *)
Theorem python_node_differ (input : option string) (outputs : list Output.t)
    (out : stdout) :
  (∀ output, output ∈ outputs → Output.type output = "logs" →
     is_Some (Output.logs output)) →
  ∃ written lines,
    Node.toolCallDelta (code_interpreter_delta input (Some outputs)) out
    = (Val (), out ++ written ++ (nl +:+ "output >" +:+ nl) :: lines)
    ∧ on_tool_call_delta (code_interpreter_delta input (Some outputs)) out
      = (Val (),
         out ++ written ++
         match outputs with
         | [] => []
         | _ :: _ => (nl +:+ nl +:+ "output >" +:+ nl) :: lines
         end)
    ∧ (outputs = [] → lines = []).
Proof.
  intros Hlogs. rewrite on_tool_call_delta_code, toolCallDelta_code.
  eexists _, _. split; [|split].
  - simpl. reflexivity.
  - assert (Node.js_truthy_string input = truthy_str input) as -> by done.
    assert ((if truthy_str input then [Node.js_string input] else [])
            = (if truthy_str input then [str input] else [])) as ->.
    { by destruct input. }
    simpl default. rewrite (log_lines_agree outputs Hlogs).
    by destruct outputs.
  - by intros ->.
Qed.

Lemma python_node_differ_witness :
  Node.toolCallDelta (code_interpreter_delta (Some "x = 1") (Some [])) []
  = (Val (), ["x = 1"; nl +:+ "output >" +:+ nl])
  ∧ on_tool_call_delta (code_interpreter_delta (Some "x = 1") (Some [])) []
    = (Val (), ["x = 1"]).
Proof.
  destruct (python_node_differ (Some "x = 1") [] [])
    as (written & lines & Hnode & Hpython & Hlines).
  - intros output Hin. by apply list_elem_of_In in Hin.
  - split; [reflexivity|reflexivity].
Defined.

Lemma for_on_text_delta (values : list string) (out : stdout) :
  for_ values on_text_delta out = (Val (), out ++ values).
Proof.
  revert out. induction values as [|v values IH]; intros out; simpl.
  - by rewrite app_nil_r.
  - unfold mbind, M_bind, on_text_delta at 1, print.
    rewrite IH, append_empty_r, <- app_assoc. reflexivity.
Qed.

Lemma for_textDelta (values : list string) (out : stdout) :
  for_ values Node.textDelta out = (Val (), out ++ values).
Proof.
  revert out. induction values as [|v values IH]; intros out; simpl.
  - by rewrite app_nil_r.
  - unfold mbind, M_bind, Node.textDelta at 1, Node.write.
    rewrite IH, <- app_assoc. reflexivity.
Qed.

(** X16.  A message streamed as a created text followed by text deltas
    is written as the "assistant > " prompt and then the delta values,
    verbatim and in order, by the Python handlers and by the Node.js
    listeners alike. *)
Theorem text_deltas_in_order (values : list string) (out : stdout) :
  (on_text_created;; for_ values on_text_delta) out
  = (Val (), out ++ (nl +:+ "assistant > ") :: values)
  ∧ (Node.textCreated;; for_ values Node.textDelta) out
    = (Val (), out ++ (nl +:+ "assistant > ") :: values).
Proof.
  unfold mbind, M_bind, on_text_created, Node.textCreated, print, Node.write.
  rewrite for_on_text_delta, for_textDelta, append_empty_r.
  by rewrite <- !app_assoc.
Qed.

(** X17.  A 'code_interpreter' delta that carries no code-interpreter
    object makes the handler fail on its first attribute read, before
    anything is written: [AttributeError] in Python, [TypeError] in
    Node.js. *)
Theorem tool_call_delta_without_object (delta : ToolCallDelta.t) (out : stdout) :
  ToolCallDelta.type delta = "code_interpreter" →
  ToolCallDelta.code_interpreter delta = None →
  on_tool_call_delta delta out = (Exc (AttributeError "input"), out)
  ∧ Node.toolCallDelta delta out = (Exc TypeError, out).
Proof.
  intros Htype Hnone. apply String.eqb_eq in Htype.
  unfold on_tool_call_delta, Node.toolCallDelta, mbind, M_bind, lift,
    code_interpreter_attr, Node.code_interpreter_prop.
  by rewrite Htype, Hnone.
Qed.

Lemma tool_call_delta_without_object_witness :
  on_tool_call_delta Samples.code_delta_absent ["so far"]
    = (Exc (AttributeError "input"), ["so far"])
  ∧ Node.toolCallDelta Samples.code_delta_absent ["so far"]
    = (Exc TypeError, ["so far"]).
Proof.
  by apply (tool_call_delta_without_object Samples.code_delta_absent ["so far"]).
Defined.

(** X18.  A code-interpreter delta may be split: handling one delta that
    carries both an input and outputs writes the same as handling a delta
    with the input alone and then a delta with the outputs alone, in
    Python and in Node.js. *)
Theorem tool_call_delta_splits (input : option string)
    (outputs : option (list Output.t)) (out : stdout) :
  on_tool_call_delta (code_interpreter_delta input outputs) out
  = (on_tool_call_delta (code_interpreter_delta input None);;
     on_tool_call_delta (code_interpreter_delta None outputs)) out
  ∧ Node.toolCallDelta (code_interpreter_delta input outputs) out
    = (Node.toolCallDelta (code_interpreter_delta input None);;
       Node.toolCallDelta (code_interpreter_delta None outputs)) out.
Proof.
  unfold mbind, M_bind.
  rewrite !on_tool_call_delta_code, !toolCallDelta_code. simpl.
  rewrite !app_nil_r. by rewrite <- !app_assoc.
Qed.
